(** * pcast: the audio assembly pipeline of [app.py]

    A shallow embedding of the three methods of [PodcastGenerator] that
    turn a stream of raw PCM chunks into a WAV file:

    - [parse_audio_mime_type]  (the MIME parameter parser),
    - [convert_to_wav]         (the WAV encoder, through [struct.pack]),
    - [generate_podcast_audio] (the chunk collector and its retry loop).

    Python values are modelled as follows.  A [str] is a [string] whose
    characters are the code points U+0000..U+00FF; [bytes] is a
    [list byte]; an [int] is a [Z]; a raised exception is the [Raise]
    branch of [result].  Progress bars, animation threads, the pauses
    they take and console output are presentation only and are left
    out, but for the truth value of a bar where the code tests it;
    file names are given relative to [OUTPUT_DIR]. *)

(** Beyond these three, the file embeds [generate_podcast_script] (the
    retry loop around the text generation call and the request for a
    conclusion), [select_voices] (over an explicit source of random
    indices) and the file name [generate_podcast_audio] builds from the
    topic. *)

From Stdlib Require Import ZArith NArith List Bool Lia.
From Stdlib Require Import Strings.Ascii Strings.String Strings.Byte.
From Stdlib Require Import Numbers.DecimalString.
From Stdlib Require Numbers.DecimalPos.
Import ListNotations.

Local Open Scope string_scope.
Local Open Scope list_scope.
Local Open Scope Z_scope.

(** ** Exceptions and fallible computations *)

Inductive exn : Type :=
| ValueError
| IndexError
| StructError
| TypeError (msg : string)
| Exception (msg : string).

Inductive result (A : Type) : Type :=
| Ok (a : A)
| Raise (e : exn).

Arguments Ok {A} a.
Arguments Raise {A} e.

Definition bind {A B : Type} (r : result A) (k : A -> result B) : result B :=
  match r with
  | Ok a => k a
  | Raise e => Raise e
  end.

Notation "x <- r ;; k" := (bind r (fun x => k))
  (at level 61, r at next level, right associativity).

(** [try: body except (ValueError, IndexError): pass], where the
    variables assigned by [body] keep their old value [old] when the
    handler runs.  Any other exception propagates. *)
Definition try_except_ValueError_IndexError {A : Type}
    (body : result A) (old : A) : result A :=
  match body with
  | Raise ValueError => Ok old
  | Raise IndexError => Ok old
  | other => other
  end.

Definition bytes : Type := list byte.

(** ** The Python builtins used by the parser *)

Module Py.

Definition ord (c : ascii) : N := N_of_ascii c.

(** [str.isspace] on U+0000..U+00FF: TAB..CR, FS..US, SPACE, NEL, NBSP. *)
Definition isspace (c : ascii) : bool :=
  let n := ord c in
  (((9 <=? n) && (n <=? 13)) || ((28 <=? n) && (n <=? 32))
   || (n =? 133) || (n =? 160))%N.

Fixpoint lstrip (s : string) : string :=
  match s with
  | EmptyString => EmptyString
  | String c s' => if isspace c then lstrip s' else s
  end.

Fixpoint rstrip (s : string) : string :=
  match s with
  | EmptyString => EmptyString
  | String c s' =>
      match rstrip s' with
      | EmptyString => if isspace c then EmptyString else String c EmptyString
      | r => String c r
      end
  end.

(** [s.strip()] *)
Definition strip (s : string) : string := rstrip (lstrip s).

(** [str.lower] on one code point below U+0100: A..Z and the Latin-1
    capitals (all of U+00C0..U+00DE but the multiplication sign). *)
Definition lower_char (c : ascii) : ascii :=
  let n := ord c in
  if (((65 <=? n) && (n <=? 90))
      || ((192 <=? n) && (n <=? 222) && negb (n =? 215)))%N
  then ascii_of_N (n + 32)
  else c.

Fixpoint lower (s : string) : string :=
  match s with
  | EmptyString => EmptyString
  | String c s' => String (lower_char c) (lower s')
  end.

(** [s.startswith(p)] *)
Definition startswith (s p : string) : bool := String.prefix p s.

(** [s.split(sep)] for a one-character separator. *)
Fixpoint split (sep : ascii) (s : string) : list string :=
  match s with
  | EmptyString => [EmptyString]
  | String c s' =>
      if Ascii.eqb c sep then EmptyString :: split sep s'
      else match split sep s' with
           | h :: t => String c h :: t
           | [] => [String c EmptyString]
           end
  end.

(** [s.split(sep, 1)] for a one-character separator. *)
Fixpoint split1 (sep : ascii) (s : string) : list string :=
  match s with
  | EmptyString => [EmptyString]
  | String c s' =>
      if Ascii.eqb c sep then [EmptyString; s']
      else match split1 sep s' with
           | h :: t => String c h :: t
           | [] => [String c EmptyString]
           end
  end.

(** [l[i]] *)
Definition getitem {A : Type} (l : list A) (i : nat) : result A :=
  match nth_error l i with
  | Some a => Ok a
  | None => Raise IndexError
  end.

(** The whitespace [int()] skips around a literal: the ASCII
    [Py_ISSPACE] characters, and the non-ASCII spaces, which the
    conversion first rewrites to a blank.  FS..US are not skipped. *)
Definition int_isspace (c : ascii) : bool :=
  let n := ord c in
  (((9 <=? n) && (n <=? 13)) || (n =? 32) || (n =? 133) || (n =? 160))%N.

Fixpoint int_lstrip (s : string) : string :=
  match s with
  | EmptyString => EmptyString
  | String c s' => if int_isspace c then int_lstrip s' else s
  end.

Fixpoint all_int_space (s : string) : bool :=
  match s with
  | EmptyString => true
  | String c s' => int_isspace c && all_int_space s'
  end.

Definition digit_value (c : ascii) : option Z :=
  let n := ord c in
  if ((48 <=? n) && (n <=? 57))%N then Some (Z.of_N n - 48) else None.

(** [sys.int_info.default_max_str_digits] *)
Definition int_max_str_digits : nat := 4300.

(** The digits of a base-10 literal, with single underscores allowed
    between digits.  [acc] is the value and [count] the number of
    digits read so far, [prev_us] says that the previous character was
    an underscore; the result also gives the unread rest. *)
Fixpoint int_digits (s : string) (acc : Z) (count : nat) (prev_us : bool)
    : option (Z * nat * string) :=
  match s with
  | EmptyString => if prev_us then None else Some (acc, count, s)
  | String c s' =>
      match digit_value c with
      | Some d => int_digits s' (10 * acc + d) (S count) false
      | None =>
          if Ascii.eqb c "_" then
            if prev_us then None else int_digits s' acc count true
          else if prev_us then None else Some (acc, count, s)
      end
  end.

(** [int(s)]: blanks, an optional sign, the digits, blanks. *)
Definition int (s : string) : result Z :=
  let s1 := int_lstrip s in
  let '(sign, s2) :=
    match s1 with
    | String "+" r => (1, r)
    | String "-" r => (-1, r)
    | _ => (1, s1)
    end in
  match s2 with
  | String "_" _ => Raise ValueError
  | _ =>
      match int_digits s2 0 0%nat false with
      | Some (v, count, rest) =>
          if (count =? 0)%nat then Raise ValueError
          else if negb (all_int_space rest) then Raise ValueError
          else if (int_max_str_digits <? count)%nat then Raise ValueError
          else Ok (sign * v)
      | None => Raise ValueError
      end
  end.

(** [s.endswith(p)] *)
Definition endswith (s p : string) : bool :=
  (String.length p <=? String.length s)%nat
  && String.eqb
       (substring (String.length s - String.length p) (String.length p) s) p.

(** [s.endswith((p1, ..., pn))] *)
Definition endswith_any (s : string) (ps : list string) : bool :=
  existsb (endswith s) ps.

(** [sub in s] *)
Fixpoint contains (sub s : string) : bool :=
  String.prefix sub s
  || match s with
     | EmptyString => false
     | String _ s' => contains sub s'
     end.

(** [s.replace(a, b)] for one-character [a] and [b]. *)
Fixpoint replace_char (a b : ascii) (s : string) : string :=
  match s with
  | EmptyString => EmptyString
  | String c s' => String (if Ascii.eqb c a then b else c) (replace_char a b s')
  end.

(** [c.isalnum()] on U+0000..U+00FF: the ASCII digits and letters, the
    Latin-1 letters, the ordinal indicators, the micro sign, the
    superscript digits and the vulgar fractions. *)
Definition isalnum (c : ascii) : bool :=
  let n := ord c in
  (((48 <=? n) && (n <=? 57)) || ((65 <=? n) && (n <=? 90))
   || ((97 <=? n) && (n <=? 122))
   || (n =? 170) || (n =? 178) || (n =? 179) || (n =? 181)
   || (n =? 185) || (n =? 186) || ((188 <=? n) && (n <=? 190))
   || ((192 <=? n) && (n <=? 214)) || ((216 <=? n) && (n <=? 246))
   || ((248 <=? n) && (n <=? 255)))%N.

(** [str(n)] for an [int]. *)
Definition str (n : Z) : string := NilZero.string_of_int (Z.to_int n).

(** [d.get(key, default)] for a dict literal, as an association list. *)
Fixpoint dict_get {V : Type} (d : list (string * V)) (key : string) (default : V) : V :=
  match d with
  | [] => default
  | (k, v) :: rest => if String.eqb k key then v else dict_get rest key default
  end.

(** [d[key]] for a dict literal; [None] stands for [KeyError]. *)
Fixpoint dict_getitem {V : Type} (d : list (string * V)) (key : string) : option V :=
  match d with
  | [] => None
  | (k, v) :: rest => if String.eqb k key then Some v else dict_getitem rest key
  end.

End Py.

(** ** [parse_audio_mime_type] *)

(** The returned dict [{"bits_per_sample": ..., "rate": ...}]. *)
Record AudioParams : Type := mkAudioParams {
  bits_per_sample : Z;
  rate : Z
}.

(** One iteration of [for param in parts]; [cur] holds the two locals
    [bits_per_sample] and [rate]. *)
Definition parse_param (cur : AudioParams) (param : string) : result AudioParams :=
  let param := Py.strip param in
  if Py.startswith (Py.lower param) "rate=" then
    try_except_ValueError_IndexError
      (rate_str <- Py.getitem (Py.split1 "=" param) 1 ;;
       r <- Py.int rate_str ;;
       Ok (mkAudioParams (bits_per_sample cur) r))
      cur
  else if Py.startswith param "audio/L" then
    try_except_ValueError_IndexError
      (after_L <- Py.getitem (Py.split1 "L" param) 1 ;;
       b <- Py.int after_L ;;
       Ok (mkAudioParams b (rate cur)))
      cur
  else Ok cur.

Fixpoint parse_params (parts : list string) (cur : AudioParams) : result AudioParams :=
  match parts with
  | [] => Ok cur
  | param :: rest => cur' <- parse_param cur param ;; parse_params rest cur'
  end.

Definition parse_audio_mime_type (mime_type : string) : result AudioParams :=
  parse_params (Py.split ";" mime_type) (mkAudioParams 16 24000).

(** ** [struct.pack] with a little-endian, unaligned format *)

Module Struct.

(** The format characters of ["<4sI4s4sIHHIIHH4sI"]. *)
Inductive item : Type :=
| s_ (n : nat)   (* [ns]: a byte string of exactly [n] bytes *)
| I_             (* unsigned int, 4 bytes *)
| H_.            (* unsigned short, 2 bytes *)

Inductive arg : Type :=
| Bytes (b : bytes)
| Int (v : Z).

Definition byte_of_Z (z : Z) : byte :=
  match Byte.of_N (Z.to_N (z mod 256)) with
  | Some b => b
  | None => x00
  end.

(** The [width] low bytes of [v], least significant first. *)
Fixpoint le_bytes (width : nat) (v : Z) : bytes :=
  match width with
  | O => []
  | S w => byte_of_Z v :: le_bytes w (v / 256)
  end.

(** An unsigned field: out of range is [struct.error]. *)
Definition in_range (width : nat) (v : Z) : bool :=
  (0 <=? v) && (v <? 2 ^ (8 * Z.of_nat width)).

Definition pack_uint (width : nat) (v : Z) : result bytes :=
  if in_range width v then Ok (le_bytes width v) else Raise StructError.

(** [ns]: truncated or padded with null bytes to [n] bytes. *)
Definition pack_s (n : nat) (v : bytes) : bytes :=
  firstn n v ++ repeat x00 (n - List.length v)%nat.

Definition pack_item (f : item) (a : arg) : result bytes :=
  match f, a with
  | s_ n, Bytes v => Ok (pack_s n v)
  | I_, Int v => pack_uint 4 v
  | H_, Int v => pack_uint 2 v
  | _, _ => Raise StructError
  end.

Fixpoint pack (fmt : list item) (args : list arg) : result bytes :=
  match fmt, args with
  | [], [] => Ok []
  | f :: fmt', a :: args' =>
      field <- pack_item f a ;;
      fields <- pack fmt' args' ;;
      Ok (field ++ fields)
  | _, _ => Raise StructError
  end.

End Struct.

(** A bytes literal such as [b"RIFF"]. *)
Definition b (s : string) : bytes := list_byte_of_string s.

(** ** [convert_to_wav] *)

(** ["<4sI4s4sIHHIIHH4sI"] *)
Definition wav_header_format : list Struct.item :=
  [Struct.s_ 4; Struct.I_; Struct.s_ 4; Struct.s_ 4; Struct.I_;
   Struct.H_; Struct.H_; Struct.I_; Struct.I_; Struct.H_; Struct.H_;
   Struct.s_ 4; Struct.I_].

Definition convert_to_wav (audio_data : bytes) (mime_type : string) : result bytes :=
  parameters <- parse_audio_mime_type mime_type ;;
  let bits_per_sample := bits_per_sample parameters in
  let sample_rate := rate parameters in
  let num_channels := 1 in
  let data_size := Z.of_nat (List.length audio_data) in
  let bytes_per_sample := bits_per_sample / 8 in
  let block_align := num_channels * bytes_per_sample in
  let byte_rate := sample_rate * block_align in
  let chunk_size := 36 + data_size in
  header <- Struct.pack wav_header_format
    [Struct.Bytes (b "RIFF");
     Struct.Int chunk_size;
     Struct.Bytes (b "WAVE");
     Struct.Bytes (b "fmt ");
     Struct.Int 16;
     Struct.Int 1;
     Struct.Int num_channels;
     Struct.Int sample_rate;
     Struct.Int byte_rate;
     Struct.Int block_align;
     Struct.Int bits_per_sample;
     Struct.Bytes (b "data");
     Struct.Int data_size] ;;
  Ok (header ++ audio_data).

(** ** [generate_podcast_audio] *)

Definition MAX_RETRIES : nat := 3.
Definition RETRY_DELAY : nat := 2.

(** [inline_data] of a streamed part. *)
Module Blob.
Record t : Type := mk {
  data : bytes;
  mime_type : option string
}.
End Blob.

(** What the loop body looks at in one streamed element. *)
Inductive Chunk : Type :=
| NoParts                        (* candidates, content or parts is None *)
| TextOnly (text : option string)   (* parts[0].inline_data is empty *)
| Inline (inline_data : Blob.t).

(** How the iteration over one stream ends. *)
Inductive StreamEnd : Type :=
| Exhausted
| Failed (error_message : string).   (* an exception [e], with [str(e)] *)

Record Stream : Type := mkStream {
  elements : list Chunk;
  ending : StreamEnd
}.

(** The two locals the retry loop accumulates into. *)
Record Buffer : Type := mkBuffer {
  all_audio_chunks : list bytes;
  mime_type : option string
}.

(** What the collector does to the outside world, in order. *)
Inductive Event : Type :=
| OpenStream (attempt : nat)
| Sleep (seconds : nat)
| SaveText (file_name : string) (text : string)
| ConvertToWav (mime_type : string)
| SaveBinary (file_name : string) (data : bytes).

(** The body of [for chunk in ...generate_content_stream(...)]. *)
Definition process_chunk (buf : Buffer) (chunk : Chunk) : Buffer :=
  match chunk with
  | NoParts => buf
  | TextOnly _ => buf
  | Inline inline_data =>
      mkBuffer
        (all_audio_chunks buf ++ [Blob.data inline_data])
        (match mime_type buf with
         | None => Blob.mime_type inline_data
         | Some m => Some m
         end)
  end.

Definition process_stream (buf : Buffer) (s : Stream) : Buffer :=
  fold_left process_chunk (elements s) buf.

(** [f"Failed to generate audio after {MAX_RETRIES} attempts: {error_message}"] *)
Definition failed_message (error_message : string) : string :=
  ("Failed to generate audio after "
   ++ NilEmpty.string_of_uint (Nat.to_uint MAX_RETRIES)
   ++ " attempts: " ++ error_message)%string.

Definition no_audio_message : string :=
  "No audio was generated. Please try again with a different topic.".

(** [combined_audio = b''; for chunk in all_audio_chunks: combined_audio += chunk] *)
Definition combine_chunks (chunks : list bytes) : bytes :=
  fold_left (fun combined_audio chunk => combined_audio ++ chunk) chunks [].

(** Truthiness of an [Optional[str]]. *)
Definition truthy (m : option string) : bool :=
  match m with
  | Some (String _ _) => true
  | _ => false
  end.

(** [mime_type or "audio/L16;rate=24000"] *)
Definition mime_type_or_default (m : option string) : string :=
  match m with
  | Some (String c r) => String c r
  | _ => "audio/L16;rate=24000"
  end.

(** A [tqdm] progress bar, as far as its truth value goes.  The bars of
    [generate_podcast_audio] are built from keyword arguments only, so
    their [iterable] is [None]; [total] is the keyword of that name,
    [None] when the call does not give it. *)
Module Tqdm.

Record t : Type := tqdm {
  total : option Z
}.

Definition bool_undefined : string :=
  "bool() undefined when iterable == total == None".

(** [tqdm.__bool__] of a bar whose [iterable] is [None]:
    [self.total > 0] when there is a total, [TypeError] when there is
    none. *)
Definition __bool__ (bar : t) : result bool :=
  match total bar with
  | Some n => Ok (0 <? n)
  | None => Raise (TypeError bool_undefined)
  end.

End Tqdm.

(** [init_pbar = tqdm(total=100, desc=..., bar_format=..., dynamic_ncols=True)] *)
Definition init_pbar : Tqdm.t := Tqdm.tqdm (Some 100).

(** [tqdm(desc=..., unit="chunk", bar_format=..., dynamic_ncols=True)],
    the bar each attempt creates before it opens its stream: no
    [total]. *)
Definition chunk_progress_bar : Tqdm.t := Tqdm.tqdm None.

(** Truth value of a local that holds [None] or a bar. *)
Definition bar_truthy (bar : option Tqdm.t) : result bool :=
  match bar with
  | None => Ok false
  | Some b => Tqdm.__bool__ b
  end.

(** The head of the handler of the retry loop:
    [if progress_bar: progress_bar.close()] and
    [if 'init_pbar' in locals() and init_pbar: init_pbar.close()].
    Closing a bar is presentation; the two truth tests are evaluated
    in this order. *)
Definition close_bars (progress_bar : option Tqdm.t) : result unit :=
  _ <- bar_truthy progress_bar ;;
  _ <- bar_truthy (Some init_pbar) ;;
  Ok tt.

Section Collector.

(** The streaming TTS call.  Its arguments are the same at every
    attempt, so a stream is determined by the attempt that opens it. *)
Variable generate_content_stream : nat -> Stream.
(** [mimetypes.guess_extension] *)
Variable guess_extension : string -> option string.
(** [f"podcast_{sanitized_topic}_{timestamp}"], and the script. *)
Variable file_name : string.
Variable script : string.

(** [for attempt in range(MAX_RETRIES)], over the attempts left.  An
    attempt assigns [progress_bar] before it opens its stream, and the
    stream is what fails here, so the handler always finds the bar of
    the attempt it handles.  An exception raised by the handler itself
    leaves the function. *)
Fixpoint retry_loop (attempts : list nat) (buf : Buffer)
    : list Event * result Buffer :=
  match attempts with
  | [] => ([], Ok buf)
  | attempt :: rest =>
      let progress_bar := Some chunk_progress_bar in
      let s := generate_content_stream attempt in
      let buf' := process_stream buf s in
      match ending s with
      | Exhausted => ([OpenStream attempt], Ok buf')
      | Failed error_message =>
          match close_bars progress_bar with
          | Raise e => ([OpenStream attempt], Raise e)
          | Ok _ =>
              if (attempt <? MAX_RETRIES - 1)%nat then
                let '(events, r) := retry_loop rest buf' in
                (OpenStream attempt :: Sleep RETRY_DELAY :: events, r)
              else
                ([OpenStream attempt],
                 Raise (Exception (failed_message error_message)))
          end
      end
  end.

(** The part after the retry loop. *)
Definition save_audio (buf : Buffer) : list Event * result (string * string) :=
  match all_audio_chunks buf with
  | [] => ([], Raise (Exception no_audio_message))
  | _ :: _ =>
      let combined_audio := combine_chunks (all_audio_chunks buf) in
      let script_name := (file_name ++ ".txt")%string in
      let file_extension :=
        if truthy (mime_type buf)
        then guess_extension (mime_type_or_default (mime_type buf))
        else None in
      match file_extension with
      | Some ext =>
          ([SaveText script_name script;
            SaveBinary (file_name ++ ext)%string combined_audio],
           Ok ((file_name ++ ext)%string, script_name))
      | None =>
          let m := mime_type_or_default (mime_type buf) in
          match convert_to_wav combined_audio m with
          | Ok wav =>
              ([SaveText script_name script; ConvertToWav m;
                SaveBinary (file_name ++ ".wav")%string wav],
               Ok ((file_name ++ ".wav")%string, script_name))
          | Raise e =>
              ([SaveText script_name script; ConvertToWav m], Raise e)
          end
      end
  end.

Definition generate_podcast_audio : list Event * result (string * string) :=
  let '(events, r) := retry_loop (seq 0 MAX_RETRIES) (mkBuffer [] None) in
  match r with
  | Raise e => (events, Raise e)
  | Ok buf =>
      let '(events', r') := save_audio buf in
      (events ++ events', r')
  end.

End Collector.

(** ** Vocabulary of the specification

    The definitions below are not taken from [app.py]: they write down
    the words of the specification, to be compared with the code. *)

(** *** The WAV header, as the specification lays it out *)

(** Byte [i] of an integer written least significant byte first. *)
Definition le_byte (v : Z) (i : nat) : byte :=
  Struct.byte_of_Z (v / 256 ^ Z.of_nat i).

Definition uint16_le (v : Z) : bytes := [le_byte v 0; le_byte v 1].
Definition uint32_le (v : Z) : bytes :=
  [le_byte v 0; le_byte v 1; le_byte v 2; le_byte v 3].

Definition spec_block_align (bitsPerSample : Z) : Z := 1 * (bitsPerSample / 8).

Definition spec_wav_header (bitsPerSample sampleRateHz dataSize : Z) : bytes :=
  b "RIFF"
  ++ uint32_le (36 + dataSize)
  ++ b "WAVE"
  ++ b "fmt "
  ++ uint32_le 16
  ++ uint16_le 1
  ++ uint16_le 1
  ++ uint32_le sampleRateHz
  ++ uint32_le (sampleRateHz * spec_block_align bitsPerSample)
  ++ uint16_le (spec_block_align bitsPerSample)
  ++ uint16_le bitsPerSample
  ++ b "data"
  ++ uint32_le dataSize.

(** Reading an unsigned little-endian integer back. *)
Fixpoint le_value (bs : bytes) : Z :=
  match bs with
  | [] => 0
  | x :: rest => Z.of_N (Byte.to_N x) + 256 * le_value rest
  end.

Definition read_uint (offset width : nat) (buf : bytes) : Z :=
  le_value (firstn width (skipn offset buf)).

(** The standard header fields of a WAV buffer. *)
Record WavFields : Type := mkWavFields {
  riffChunkSize : Z;
  audioFormat : Z;
  channels : Z;
  sampleRateHz : Z;
  byteRate : Z;
  blockAlign : Z;
  bitsPerSample : Z;
  dataSize : Z
}.

Definition read_wav_header (buf : bytes) : WavFields :=
  mkWavFields (read_uint 4 4 buf) (read_uint 20 2 buf) (read_uint 22 2 buf)
    (read_uint 24 4 buf) (read_uint 28 4 buf) (read_uint 32 2 buf)
    (read_uint 34 2 buf) (read_uint 40 4 buf).

Definition fits_uint32 (v : Z) : Prop := 0 <= v <= 4294967295.
Definition fits_uint16 (v : Z) : Prop := 0 <= v <= 65535.

(** The ranges under which every header field can be packed. *)
Definition header_fields_fit (p : AudioParams) (payload_length : Z) : Prop :=
  fits_uint32 (36 + payload_length)
  /\ fits_uint32 (rate p * spec_block_align (bits_per_sample p))
  /\ fits_uint32 (rate p)
  /\ fits_uint16 (bits_per_sample p)
  /\ fits_uint16 (spec_block_align (bits_per_sample p)).

(** *** The segments of a MIME type, as the specification reads them *)

(** [rate=<value>], the key compared without regard to case. *)
Definition rate_value (segment : string) : option string :=
  if String.eqb (Py.lower (substring 0 5 segment)) "rate="
  then Some (substring 5 (String.length segment - 5) segment)
  else None.

(** The literal prefix [audio/L], and what follows the [L]. *)
Definition bits_value (segment : string) : option string :=
  if String.eqb (substring 0 7 segment) "audio/L"
  then Some (substring 7 (String.length segment - 7) segment)
  else None.

Definition parsed_int (value : option string) : option Z :=
  match value with
  | Some v => match Py.int v with Ok n => Some n | Raise _ => None end
  | None => None
  end.

(** A well-formed rate field, and a well-formed bit-depth field. *)
Definition rate_field (segment : string) : option Z :=
  parsed_int (rate_value (Py.strip segment)).

Definition bits_field (segment : string) : option Z :=
  parsed_int (bits_value (Py.strip segment)).

(** What one segment does to the parameters read so far. *)
Definition spec_segment (cur : AudioParams) (segment : string) : AudioParams :=
  match rate_value (Py.strip segment) with
  | Some value =>
      match Py.int value with
      | Ok n => mkAudioParams (bits_per_sample cur) n
      | Raise _ => cur
      end
  | None =>
      match bits_value (Py.strip segment) with
      | Some value =>
          match Py.int value with
          | Ok n => mkAudioParams n (rate cur)
          | Raise _ => cur
          end
      | None => cur
      end
  end.

Definition default_params : AudioParams := mkAudioParams 16 24000.

(** *** The chunk stream, as the specification reads it *)

(** The payloads of the payload-bearing chunks, in arrival order. *)
Fixpoint payloads (chunks : list Chunk) : list bytes :=
  match chunks with
  | [] => []
  | Inline inline_data :: rest => Blob.data inline_data :: payloads rest
  | _ :: rest => payloads rest
  end.

(** The MIME type of the first payload-bearing chunk that carries one. *)
Fixpoint first_mime_type (chunks : list Chunk) : option string :=
  match chunks with
  | [] => None
  | Inline inline_data :: rest =>
      match Blob.mime_type inline_data with
      | Some m => Some m
      | None => first_mime_type rest
      end
  | _ :: rest => first_mime_type rest
  end.

(** The events of [k] attempts that are retried, followed by attempt
    [k]: what a retry every [RETRY_DELAY] seconds looks like. *)
Definition retry_events (first k : nat) : list Event :=
  flat_map (fun attempt => [OpenStream attempt; Sleep RETRY_DELAY]) (seq first k)
  ++ [OpenStream (first + k)].

Definition EmptyAudioError : exn := Exception no_audio_message.
Definition GenerationFailedError (description : string) : exn :=
  Exception ("Failed to generate audio after 3 attempts: " ++ description)%string.

(** ** [generate_podcast_script] *)

Definition nl : string := String (ascii_of_nat 10) EmptyString.
Definition dq : string := String (ascii_of_nat 34) EmptyString.

Definition language_instruction (language_choice : string) : string :=
  if String.eqb (Py.lower language_choice) "tagalog" then
    "Generate the script entirely in Tagalog language. "
  else if String.eqb (Py.lower language_choice) "taglish" then
    "Generate the script in Taglish (a mix of Tagalog and English). Use both languages naturally as Filipinos would in conversation. "
  else if negb (String.eqb (Py.lower language_choice) "english") then
    ("Generate the script in " ++ language_choice ++ " language. ")%string
  else EmptyString.

Definition min_words (duration_minutes : Z) : Z := duration_minutes * 120.
Definition max_words (duration_minutes : Z) : Z := duration_minutes * 170.

(** The f-string [prompt]. *)
Definition script_prompt (topic speaker1_name speaker2_name language_choice : string)
    (duration_minutes : Z) : string :=
  String.concat EmptyString
    [
     "Create a podcast script on the topic: "; topic; nl; "        "; nl;
     "        "; language_instruction language_choice;
     "The script should:"; nl;
     "        - Have exactly two speakers named "; dq; speaker1_name; dq;
     " and "; dq; speaker2_name; dq; nl;
     "        - Include an introduction, discussion, and conclusion"; nl;
     "        - Be conversational, engaging, and informative"; nl;
     "        - Be EXACTLY "; Py.str duration_minutes; "-";
     Py.str (duration_minutes + 1); " minutes in length when read aloud";
     nl; "        - Be approximately ";
     Py.str (min_words duration_minutes); "-";
     Py.str (max_words duration_minutes);
     " words long to match this duration"; nl;
     "        - Format each line with the speaker name followed by their dialogue (Example: ";
     dq; speaker1_name; ": Hello everyone!"; dq; ")"; nl;
     "        - Include a brief intro where speakers introduce themselves and the podcast topic";
     nl;
     "        - Have a clear structure with logical flow between topics";
     nl; "        - ALWAYS end with a proper conclusion and sign-off line";
     nl;
     "        - Make sure the script is substantial enough to fill the entire ";
     Py.str duration_minutes; "-minute duration"; nl; "        "; nl;
     "        Please provide only the script with no additional comments or formatting."
    ].

(** The f-string [completion_prompt]. *)
Definition completion_prompt (speaker1_name speaker2_name script : string) : string :=
  String.concat EmptyString
    [
     "This is an incomplete podcast script that needs a proper conclusion. ";
     nl;
     "                    Please provide ONLY a brief conclusion (1-2 exchanges between speakers) that wraps up the conversation naturally.";
     nl; "                    Use the same speaker names ("; speaker1_name;
     " and "; speaker2_name; ") and same language."; nl;
     "                    "; nl; "                    Incomplete script:";
     nl; "                    "; script
    ].

(** [types.GenerateContentConfig]; the temperature in tenths. *)
Record GenerateContentConfig : Type := mkConfig {
  temperature_tenths : nat;
  max_output_tokens : nat
}.

Record Request : Type := mkRequest {
  contents : string;
  config : GenerateContentConfig
}.

(** What a call of [generate_content] comes back with: a response and
    its [text], or an exception [e] with [str(e)]. *)
Inductive Reply : Type :=
| Response (text : option string)
| Raises (error_message : string).

Inductive ScriptEvent : Type :=
| GenerateContent (call : nat) (request : Request)
| ScriptSleep (seconds : nat).

(** [not text or text.strip() == ""] *)
Definition is_blank (text : option string) : bool :=
  match text with
  | None => true
  | Some t => String.eqb t EmptyString || String.eqb (Py.strip t) EmptyString
  end.

(** The test for a script that appears to be cut off. *)
Definition looks_incomplete (script : string) : bool :=
  negb (Py.endswith_any script ["."; "!"; "?"])
  || Py.endswith_any (Py.rstrip script) ["ni"; "at"; "ang"; "ng"; "sa"].

Section ScriptGenerator.

(** The text generation call: the reply to the request that is made
    after [call] earlier ones. *)
Variable generate_content : nat -> Request -> Reply.
(** [colorama.Fore.RED] *)
Variable Fore_RED : string.

Variables topic speaker1_name speaker2_name language_choice : string.
Variable duration_minutes : Z.

Definition script_request : Request :=
  mkRequest
    (script_prompt topic speaker1_name speaker2_name language_choice duration_minutes)
    (mkConfig 8 4000).

Definition completion_request (script : string) : Request :=
  mkRequest (completion_prompt speaker1_name speaker2_name script) (mkConfig 7 1000).

Definition unable_error : string :=
  (Fore_RED ++ "Error: Unable to generate script in " ++ language_choice
   ++ " for this topic. Please try a different language or topic.")%string.

Definition sensitive_error : string :=
  (Fore_RED ++ "Error: The topic may contain sensitive content that cannot be generated. Please try a different topic.")%string.

Definition exception_error (error_message : string) : string :=
  (Fore_RED ++ "Error: " ++ error_message ++ ". Please try a different topic.")%string.

(** The inner [try]: one request for a conclusion, appended when it
    comes back with text; an exception leaves the script as it is. *)
Definition complete_script (call : nat) (script : string) : string :=
  match generate_content call (completion_request script) with
  | Response (Some t) =>
      if negb (String.eqb t EmptyString) && negb (String.eqb (Py.strip t) EmptyString)
      then (script ++ nl ++ Py.strip t)%string
      else script
  | Response None => script
  | Raises _ => script
  end.

(** [for attempt in range(MAX_RETRIES)]; each attempt makes one request,
    so attempt [a] is made after [a] earlier calls.  [None] is the
    value of a function that falls off its end. *)
Fixpoint script_attempts (attempts : list nat) : list ScriptEvent * option string :=
  match attempts with
  | [] => ([], None)
  | attempt :: rest =>
      match generate_content attempt script_request with
      | Response text =>
          if is_blank text then
            if (attempt <? MAX_RETRIES - 1)%nat then
              let '(events, r) := script_attempts rest in
              (GenerateContent attempt script_request
               :: ScriptSleep RETRY_DELAY :: events, r)
            else
              ([GenerateContent attempt script_request], Some unable_error)
          else
            let script :=
              Py.strip (match text with Some t => t | None => EmptyString end) in
            if looks_incomplete script then
              ([GenerateContent attempt script_request;
                GenerateContent (S attempt) (completion_request script)],
               Some (complete_script (S attempt) script))
            else
              ([GenerateContent attempt script_request], Some script)
      | Raises error_message =>
          if Py.contains "content_filter" (Py.lower error_message) then
            ([GenerateContent attempt script_request], Some sensitive_error)
          else if (attempt <? MAX_RETRIES - 1)%nat then
            let '(events, r) := script_attempts rest in
            (GenerateContent attempt script_request
             :: ScriptSleep RETRY_DELAY :: events, r)
          else
            ([GenerateContent attempt script_request],
             Some (exception_error error_message))
      end
  end.

Definition generate_podcast_script : list ScriptEvent * option string :=
  script_attempts (seq 0 MAX_RETRIES).

(** The test [main] makes on the script it gets back. *)
Definition reported_as_error (script : string) : bool :=
  Py.startswith script (Fore_RED ++ "Error:")%string.

End ScriptGenerator.

(** A reply after which the loop tries again (unless it was the last
    attempt): a blank text, or an exception that does not mention
    [content_filter]. *)
Definition retriable (r : Reply) : bool :=
  match r with
  | Response text => is_blank text
  | Raises error_message =>
      negb (Py.contains "content_filter" (Py.lower error_message))
  end.

(** The events of [k] retried script requests followed by request [k]. *)
Definition script_retry_events (request : Request) (first k : nat) : list ScriptEvent :=
  flat_map (fun attempt => [GenerateContent attempt request; ScriptSleep RETRY_DELAY])
    (seq first k)
  ++ [GenerateContent (first + k) request].

(** The last character of a string. *)
Fixpoint last_char (s : string) : option ascii :=
  match s with
  | EmptyString => None
  | String c EmptyString => Some c
  | String _ s' => last_char s'
  end.

(** ** [select_voices] *)

(** [self.voices] *)
Definition voices : list (string * list string) :=
  [("male",
    ["algenib"; "alnilam"; "charon"; "enceladus"; "fenrir"; "iapetus"; "orus";
     "puck"; "pulcherrima"; "rasalgethi"; "sadachbia"; "sadaltager";
     "schedar"; "umbriel"; "zubenelgenubi"]);
   ("female",
    ["achernar"; "aoede"; "autonoe"; "callirrhoe"; "despina"; "erinome";
     "gacrux"; "kore"; "laomedeia"; "leda"; "sulafat"; "vindemiatrix"; "zephyr"]);
   ("neutral", ["achird"])].

(** How a selection stands after a bounded number of draws. *)
Inductive Selection : Type :=
| Selected (voice1 voice2 : string)
| StillDrawing                        (* the loop has not ended yet *)
| SelectionError (exception : string).  (* [KeyError] or [IndexError] *)

(** [self.voices.get(gender.lower(), self.voices["neutral"])] *)
Definition voice_pool (gender : string) : option (list string) :=
  match Py.dict_getitem voices "neutral" with
  | None => None
  | Some neutral => Some (Py.dict_get voices (Py.lower gender) neutral)
  end.

Section VoiceSelection.

(** [random]: the index the [draw]-th call of [_randbelow n] returns. *)
Variable randbelow : nat -> nat -> nat.

(** [random.choice(seq)] *)
Definition choice (draw : nat) (seq : list string) : option string :=
  match seq with
  | [] => None
  | _ :: _ => nth_error seq (randbelow draw (List.length seq))
  end.

(** The loop [while voice2 == voice1 and len(pool2) > 1], allowed
    [draws] further draws. *)
Fixpoint redraw (draws draw : nat) (pool2 : list string) (voice1 voice2 : string)
    : Selection :=
  if String.eqb voice2 voice1 && (1 <? List.length pool2)%nat then
    match draws with
    | O => StillDrawing
    | S draws' =>
        match choice draw pool2 with
        | Some v => redraw draws' (S draw) pool2 voice1 v
        | None => SelectionError "IndexError"
        end
    end
  else Selected voice1 voice2.

Definition select_voices (draws : nat) (gender1 gender2 : string) : Selection :=
  match voice_pool gender1, voice_pool gender2 with
  | Some pool1, Some pool2 =>
      match choice 0 pool1 with
      | None => SelectionError "IndexError"
      | Some voice1 =>
          match choice 1 pool2 with
          | None => SelectionError "IndexError"
          | Some voice2 => redraw draws 2 pool2 voice1 voice2
          end
      end
  | _, _ => SelectionError "KeyError"
  end.

End VoiceSelection.

(** ** Sources of random indices *)

(** A source of indices that cycles through a pool. *)
Definition round_robin (draw n : nat) : nat := (draw mod n)%nat.

(** A source of indices that always points at the first voice. *)
Definition always_first (draw n : nat) : nat := 0%nat.

(** ** The file name of a podcast *)

(** The characters the class [[^\w\s-]] does not match: word
    characters, whitespace and the hyphen. *)
Definition topic_char_kept (c : ascii) : bool :=
  Py.isalnum c || Ascii.eqb c "_" || Py.isspace c || Ascii.eqb c "-".

(** [re.sub(r'[...]', '', s)] for a character class: every character the
    class matches is removed. *)
Fixpoint re_sub_class (kept : ascii -> bool) (s : string) : string :=
  match s with
  | EmptyString => EmptyString
  | String c s' =>
      if kept c then String c (re_sub_class kept s') else re_sub_class kept s'
  end.

(** [re.sub(r'[^\w\s-]', '', topic)[:30].strip().replace(' ', '_')] *)
Definition sanitized_topic (topic : string) : string :=
  Py.replace_char " " "_"
    (Py.strip (substring 0 30 (re_sub_class topic_char_kept topic))).

(** [f"podcast_{sanitized_topic}_{timestamp}"] *)
Definition podcast_file_name (topic timestamp : string) : string :=
  ("podcast_" ++ sanitized_topic topic ++ "_" ++ timestamp)%string.

(** The characters of a string, for statements about its content. *)
Definition chars (s : string) : list ascii := list_ascii_of_string s.

(** ** Concrete inputs *)

(** One second of 16-bit mono silence at 24000 Hz: 48000 bytes. *)
Definition one_second_of_silence : bytes := repeat x00 (Z.to_nat 48000).


(** A service that is down. *)
Definition always_failing (attempt : nat) : Stream :=
  mkStream [] (Failed "service unavailable").

(** A stream that ends normally with diagnostic text only. *)
Definition text_only (attempt : nat) : Stream :=
  mkStream [NoParts; TextOnly (Some "no audio for this request")] Exhausted.

(** Three chunks, the second the first to declare a MIME type. *)
Definition untyped_chunk : Blob.t := Blob.mk [x01; x02] None.
Definition typed_chunk : Blob.t := Blob.mk [x03] (Some "audio/L16;rate=24000").
Definition other_chunk : Blob.t := Blob.mk [x04; x05] (Some "audio/L24;rate=48000").

Definition mixed_stream : Stream :=
  mkStream [TextOnly None; Inline untyped_chunk; Inline typed_chunk;
            NoParts; Inline other_chunk] Exhausted.

(** A stream whose only chunk declares 65536 bits per sample. *)
Definition wide_stream : Stream :=
  mkStream [Inline (Blob.mk [x00] (Some "audio/L65536"))] Exhausted.

(** A stream of two chunks without MIME type, after some text. *)
Definition untyped_stream (attempt : nat) : Stream :=
  mkStream [TextOnly None; Inline untyped_chunk; Inline (Blob.mk [x03] None)]
    Exhausted.

(** One chunk without MIME type whose 4294967260 bytes leave no room
    for the 36 further bytes the RIFF size counts. *)
Definition oversized_chunk : Blob.t :=
  Blob.mk (repeat x00 (Z.to_nat 4294967260)) None.

Definition oversized_stream (attempt : nat) : Stream :=
  mkStream [Inline oversized_chunk] Exhausted.

(** An MPEG stream, and a MIME table that knows only MPEG audio. *)
Definition mpeg_stream (attempt : nat) : Stream :=
  mkStream [Inline (Blob.mk [x01; x02] (Some "audio/mpeg"));
            TextOnly (Some "halfway");
            Inline (Blob.mk [x03] None)] Exhausted.

Definition mpeg_only (mime : string) : option string :=
  if String.eqb mime "audio/mpeg" then Some ".mp3" else None.

(** A typed chunk followed by an untyped one. *)
Definition typed_then_untyped (attempt : nat) : Stream :=
  mkStream [Inline (Blob.mk [x01] (Some "audio/L24;rate=48000"));
            Inline (Blob.mk [x02; x03; x04] None)] Exhausted.

(** A stream that breaks after two chunks, whatever is asked again. *)
Definition breaks_after_two_chunks (attempt : nat) : Stream :=
  mkStream [Inline (Blob.mk [x01] (Some "audio/L24;rate=48000"));
            Inline (Blob.mk [x02; x03; x04] None)]
    (Failed "connection reset").

(** A first chunk whose MIME type is the empty string. *)
Definition blank_typed_stream (attempt : nat) : Stream :=
  mkStream [Inline (Blob.mk [x01] (Some ""));
            Inline (Blob.mk [x02] (Some "audio/L24;rate=48000"))] Exhausted.


(** The events that follow the retry loop. *)
Definition after_loop_event (e : Event) : bool :=
  match e with
  | OpenStream _ => false
  | Sleep _ => false
  | _ => true
  end.

(** The escape sequence [colorama] gives for red text. *)
Definition ansi_red : string := String (ascii_of_nat 27) "[31m".

(** A blank reply, then a refusal by the content filter. *)
Definition filtered_after_blank (call : nat) (request : Request) : Reply :=
  match call with
  | O => Response (Some "   ")
  | _ => Raises "400 Blocked: CONTENT_FILTER"
  end.

(** A reply that ends with a full stop. *)
Definition complete_reply (call : nat) (request : Request) : Reply :=
  Response (Some "  Ana: Hi. Ben: Bye.  ").

(** A time-out, a reply that stops in mid-sentence, and no conclusion. *)
Definition cut_off_reply (call : nat) (request : Request) : Reply :=
  match call with
  | O => Raises "timeout"
  | S O => Response (Some "Ana: So the tide")
  | _ => Raises "quota exceeded"
  end.

(** Two time-outs and a response without text. *)
Definition never_answers (call : nat) (request : Request) : Reply :=
  match call with
  | S (S O) => Response None
  | _ => Raises "timeout"
  end.

(** A source of indices that points at the first voice twice and at
    the fourth on the third draw. *)
Definition fourth_on_third_draw (draw n : nat) : nat :=
  match draw with
  | S (S O) => (3 mod n)%nat
  | _ => 0%nat
  end.

(** Whether no voice of [l1] is a voice of [l2]. *)
Definition disjoint_pools (l1 l2 : list string) : bool :=
  forallb (fun a => forallb (fun c => negb (String.eqb a c)) l2) l1.

(** A stream whose MIME type declares a negative sample rate. *)
Definition negative_rate_stream (attempt : nat) : Stream :=
  mkStream [Inline (Blob.mk [x01; x02] (Some "audio/L16;rate=-8000"))] Exhausted.

(** The value of a run of decimal digits read after the value [acc]. *)
Fixpoint uint_value (d : Decimal.uint) (acc : Z) : Z :=
  match d with
  | Decimal.Nil => acc
  | Decimal.D0 l => uint_value l (10 * acc + 0)
  | Decimal.D1 l => uint_value l (10 * acc + 1)
  | Decimal.D2 l => uint_value l (10 * acc + 2)
  | Decimal.D3 l => uint_value l (10 * acc + 3)
  | Decimal.D4 l => uint_value l (10 * acc + 4)
  | Decimal.D5 l => uint_value l (10 * acc + 5)
  | Decimal.D6 l => uint_value l (10 * acc + 6)
  | Decimal.D7 l => uint_value l (10 * acc + 7)
  | Decimal.D8 l => uint_value l (10 * acc + 8)
  | Decimal.D9 l => uint_value l (10 * acc + 9)
  end.

(** The characters [str] writes an [int] with. *)
Definition is_digit_or_minus (c : ascii) : bool :=
  match Py.digit_value c with
  | Some _ => true
  | None => Ascii.eqb c "-"
  end.

(** * Proofs *)

(** ** The result monad *)

Lemma bind_Ok {A B : Type} (a : A) (k : A -> result B) : bind (Ok a) k = k a.
Proof. reflexivity. Qed.

(** ** The builtins *)

Lemma getitem_second {A : Type} (x y : A) : Py.getitem [x; y] 1 = Ok y.
Proof. reflexivity. Qed.

Ltac each_ascii c :=
  destruct c as [[] [] [] [] [] [] [] []].

(** [int()] raises nothing but [ValueError]. *)
Lemma int_raises_ValueError s e : Py.int s = Raise e -> e = ValueError.
Proof.
  unfold Py.int.
  repeat match goal with
         | |- context [match ?x with _ => _ end] => destruct x
         end; congruence.
Qed.

Lemma lower_substring n m s :
  Py.lower (substring n m s) = substring n m (Py.lower s).
Proof.
  revert n m; induction s as [|c s IH]; intros [|n] [|m]; simpl;
    try reflexivity; now rewrite IH.
Qed.

Lemma startswith_eqb s p :
  Py.startswith s p = String.eqb (substring 0 (String.length p) s) p.
Proof.
  unfold Py.startswith.
  destruct (String.eqb_spec (substring 0 (String.length p) s) p) as [E|N].
  - now apply prefix_correct.
  - destruct (prefix p s) eqn:P; [|reflexivity].
    apply prefix_correct in P. contradiction.
Qed.

Lemma substring_all s : substring 0 (String.length s) s = s.
Proof. induction s as [|c s IH]; simpl; [reflexivity | now rewrite IH]. Qed.

Lemma startswith_app s p :
  Py.startswith s p = true -> s = (p ++ substring (String.length p) (String.length s - String.length p) s)%string.
Proof.
  unfold Py.startswith. revert s.
  induction p as [|a p IH]; intros s H; simpl.
  - now rewrite Nat.sub_0_r, substring_all.
  - destruct s as [|c s]; simpl in H; [discriminate|].
    destruct (ascii_dec a c) as [->|]; [|discriminate].
    simpl. f_equal. now apply IH.
Qed.

Lemma lower_char_equals c : Py.lower_char c = "="%char -> c = "="%char.
Proof. each_ascii c; vm_compute; congruence. Qed.

Lemma lower_char_not_equals c x :
  Py.lower_char c = x -> x <> "="%char -> Ascii.eqb c "=" = false.
Proof.
  intros H N. destruct (Ascii.eqb_spec c "="%char) as [->|]; [|reflexivity].
  vm_compute in H. congruence.
Qed.

(** A segment whose lowered text starts with [rate=] splits at its
    fifth character. *)
Lemma rate_split param :
  Py.startswith (Py.lower param) "rate=" = true ->
  exists key,
    Py.split1 "=" param
    = [key; substring 5 (String.length param - 5) param].
Proof.
  intros H. apply startswith_app in H.
  destruct param as [|c1 [|c2 [|c3 [|c4 [|c5 rest]]]]]; try discriminate H.
  simpl in H. injection H as H1 H2 H3 H4 H5 _.
  apply lower_char_equals in H5. subst c5.
  exists (String c1 (String c2 (String c3 (String c4 EmptyString)))).
  cbn [Py.split1].
  rewrite (lower_char_not_equals c1 _ H1) by discriminate.
  rewrite (lower_char_not_equals c2 _ H2) by discriminate.
  rewrite (lower_char_not_equals c3 _ H3) by discriminate.
  rewrite (lower_char_not_equals c4 _ H4) by discriminate.
  change (Ascii.eqb "=" "=") with true. cbv iota.
  simpl String.length. simpl substring.
  now rewrite Nat.sub_0_r, substring_all.
Qed.

Lemma bits_split param :
  Py.startswith param "audio/L" = true ->
  Py.split1 "L" param
  = ["audio/"; substring 7 (String.length param - 7) param].
Proof.
  intros H. apply startswith_app in H.
  rewrite H at 1. reflexivity.
Qed.

Lemma rate_value_startswith param :
  rate_value param
  = if Py.startswith (Py.lower param) "rate="
    then Some (substring 5 (String.length param - 5) param) else None.
Proof.
  unfold rate_value. now rewrite startswith_eqb, lower_substring.
Qed.

Lemma bits_value_startswith param :
  bits_value param
  = if Py.startswith param "audio/L"
    then Some (substring 7 (String.length param - 7) param) else None.
Proof. unfold bits_value. now rewrite startswith_eqb. Qed.

(** ** The parser agrees with the specification, segment by segment *)

Lemma try_int_field (v : string) (cur : AudioParams) (set : Z -> AudioParams) :
  try_except_ValueError_IndexError (r <- Py.int v ;; Ok (set r)) cur
  = Ok (match Py.int v with Ok n => set n | Raise _ => cur end).
Proof.
  destruct (Py.int v) as [n|e] eqn:E; simpl; [reflexivity|].
  now rewrite (int_raises_ValueError _ _ E).
Qed.

Lemma parse_param_spec cur param :
  parse_param cur param = Ok (spec_segment cur param).
Proof.
  unfold parse_param, spec_segment.
  rewrite rate_value_startswith, bits_value_startswith.
  destruct (Py.startswith (Py.lower (Py.strip param)) "rate=") eqn:R.
  - destruct (rate_split _ R) as [key ->].
    rewrite getitem_second, bind_Ok.
    apply try_int_field with (set := fun r => mkAudioParams (bits_per_sample cur) r).
  - destruct (Py.startswith (Py.strip param) "audio/L") eqn:B; [|reflexivity].
    rewrite (bits_split _ B).
    rewrite getitem_second, bind_Ok.
    apply try_int_field with (set := fun n => mkAudioParams n (rate cur)).
Qed.

Lemma parse_params_spec parts cur :
  parse_params parts cur = Ok (fold_left spec_segment parts cur).
Proof.
  revert cur. induction parts as [|param rest IH]; intros cur; simpl.
  - reflexivity.
  - rewrite parse_param_spec, bind_Ok. apply IH.
Qed.

(** A segment is never both a rate and a bit-depth segment. *)
Lemma rate_value_excludes_bits param v :
  rate_value param = Some v -> bits_value param = None.
Proof.
  rewrite rate_value_startswith, bits_value_startswith.
  destruct (Py.startswith (Py.lower param) "rate=") eqn:R; [intros _|discriminate].
  destruct (Py.startswith param "audio/L") eqn:B; [|reflexivity].
  apply startswith_app in B. rewrite B in R. discriminate R.
Qed.

Lemma spec_segment_rate cur segment :
  rate (spec_segment cur segment)
  = match rate_field segment with Some n => n | None => rate cur end.
Proof.
  unfold spec_segment, rate_field, parsed_int.
  destruct (rate_value (Py.strip segment)) as [v|].
  - now destruct (Py.int v).
  - destruct (bits_value (Py.strip segment)) as [v|]; [|reflexivity].
    now destruct (Py.int v).
Qed.

Lemma spec_segment_bits cur segment :
  bits_per_sample (spec_segment cur segment)
  = match bits_field segment with Some n => n | None => bits_per_sample cur end.
Proof.
  unfold spec_segment, bits_field, parsed_int.
  destruct (rate_value (Py.strip segment)) as [v|] eqn:R.
  - rewrite (rate_value_excludes_bits _ _ R). now destruct (Py.int v).
  - destruct (bits_value (Py.strip segment)) as [v|]; [|reflexivity].
    now destruct (Py.int v).
Qed.

Section FieldOrigin.

(** Either projection of the parameters, with the field it is read from. *)
Variable proj : AudioParams -> Z.
Variable field : string -> option Z.
Hypothesis step : forall cur segment,
  proj (spec_segment cur segment)
  = match field segment with Some n => n | None => proj cur end.

(** A value that differs from the initial one was read from a
    well-formed segment. *)
Lemma fold_field_origin segments cur :
  proj (fold_left spec_segment segments cur) = proj cur
  \/ exists segment, In segment segments
       /\ field segment = Some (proj (fold_left spec_segment segments cur)).
Proof.
  revert cur. induction segments as [|seg rest IH]; intros cur; simpl.
  - now left.
  - destruct (IH (spec_segment cur seg)) as [E|(s & I & F)].
    + rewrite E, step. destruct (field seg) as [n|] eqn:F.
      * right. exists seg. split; [now left | exact F].
      * now left.
    + right. exists s. split; [now right | exact F].
Qed.

(** Without a well-formed segment the initial value stays. *)
Lemma fold_field_default segments cur :
  (forall segment, In segment segments -> field segment = None) ->
  proj (fold_left spec_segment segments cur) = proj cur.
Proof.
  intros H. destruct (fold_field_origin segments cur) as [E|(s & I & F)].
  - exact E.
  - rewrite (H s I) in F. discriminate.
Qed.

End FieldOrigin.

(** C5.  [parse_audio_mime_type] returns parameters for every input
    string and never raises.  A field that no segment supplies in
    well-formed shape keeps its default ([bits_per_sample] 16, [rate]
    24000), and a value other than the default was read from a
    well-formed segment. *)
Theorem parse_audio_mime_type_total (mime : string) :
  exists p,
    parse_audio_mime_type mime = Ok p
    /\ ((forall segment, In segment (Py.split ";" mime) -> rate_field segment = None)
        -> rate p = 24000)
    /\ ((forall segment, In segment (Py.split ";" mime) -> bits_field segment = None)
        -> bits_per_sample p = 16)
    /\ (rate p = 24000
        \/ exists segment, In segment (Py.split ";" mime)
             /\ rate_field segment = Some (rate p))
    /\ (bits_per_sample p = 16
        \/ exists segment, In segment (Py.split ";" mime)
             /\ bits_field segment = Some (bits_per_sample p)).
Proof.
  exists (fold_left spec_segment (Py.split ";" mime) default_params).
  split; [apply parse_params_spec|].
  repeat split.
  - apply (fold_field_default rate rate_field spec_segment_rate).
  - apply (fold_field_default bits_per_sample bits_field spec_segment_bits).
  - apply (fold_field_origin rate rate_field spec_segment_rate).
  - apply (fold_field_origin bits_per_sample bits_field spec_segment_bits).
Qed.

(** C6.  The parser folds over the semicolon-separated segments of its
    input: a trimmed segment [rate=<value>] (key in any case) sets the
    rate when [<value>] parses as an integer, a trimmed segment with the
    prefix [audio/L] sets the bit depth when the text after the [L]
    parses as an integer, and every other segment leaves the parameters
    as they are.  The five inputs of the specification give the listed
    outputs. *)
Theorem parse_audio_mime_type_segments :
  (forall mime,
      parse_audio_mime_type mime
      = Ok (fold_left spec_segment (Py.split ";" mime) default_params))
  /\ parse_audio_mime_type "audio/L16;rate=24000" = Ok (mkAudioParams 16 24000)
  /\ parse_audio_mime_type "audio/L24;rate=48000" = Ok (mkAudioParams 24 48000)
  /\ parse_audio_mime_type "" = Ok (mkAudioParams 16 24000)
  /\ parse_audio_mime_type "garbage;nonsense=xyz" = Ok (mkAudioParams 16 24000)
  /\ parse_audio_mime_type "rate=notanumber" = Ok (mkAudioParams 16 24000).
Proof.
  split; [intros mime; apply parse_params_spec|].
  repeat split; reflexivity.
Qed.

(** ** Little-endian fields *)

Lemma byte_of_Z_value v : Z.of_N (Byte.to_N (Struct.byte_of_Z v)) = v mod 256.
Proof.
  unfold Struct.byte_of_Z.
  assert (B : 0 <= v mod 256 < 256) by (apply Z.mod_pos_bound; lia).
  destruct (Byte.of_N (Z.to_N (v mod 256))) as [x|] eqn:E.
  - apply Byte.to_of_N in E. rewrite E. lia.
  - apply Byte.of_N_None_iff in E. lia.
Qed.

Lemma le_value_le_bytes width v :
  0 <= v < 256 ^ Z.of_nat width ->
  le_value (Struct.le_bytes width v) = v.
Proof.
  revert v. induction width as [|w IH]; intros v Hv.
  - simpl in *. lia.
  - cbn [Struct.le_bytes le_value]. rewrite byte_of_Z_value, IH.
    + pose proof (Z.div_mod v 256). lia.
    + rewrite Nat2Z.inj_succ, Z.pow_succ_r in Hv by lia.
      split; [apply Z.div_pos; lia|].
      apply Z.div_lt_upper_bound; lia.
Qed.

Lemma le_bytes_uint16 v : Struct.le_bytes 2 v = uint16_le v.
Proof.
  unfold uint16_le, le_byte. cbn [Struct.le_bytes Z.of_nat Pos.of_succ_nat].
  change (256 ^ 1) with 256. now rewrite Z.pow_0_r, Z.div_1_r.
Qed.

Lemma le_bytes_uint32 v : Struct.le_bytes 4 v = uint32_le v.
Proof.
  unfold uint32_le, le_byte.
  cbn [Struct.le_bytes Z.of_nat Pos.of_succ_nat Pos.succ].
  change (256 ^ 1) with 256. change (256 ^ 2) with (256 * 256).
  change (256 ^ 3) with (256 * 256 * 256).
  rewrite Z.pow_0_r, Z.div_1_r, !Z.div_div by lia.
  reflexivity.
Qed.

Lemma in_range_uint32 v : Struct.in_range 4 v = true <-> fits_uint32 v.
Proof.
  unfold Struct.in_range, fits_uint32.
  change (2 ^ (8 * Z.of_nat 4)) with 4294967296.
  rewrite andb_true_iff, Z.leb_le, Z.ltb_lt. lia.
Qed.

Lemma in_range_uint16 v : Struct.in_range 2 v = true <-> fits_uint16 v.
Proof.
  unfold Struct.in_range, fits_uint16.
  change (2 ^ (8 * Z.of_nat 2)) with 65536.
  rewrite andb_true_iff, Z.leb_le, Z.ltb_lt. lia.
Qed.

(** ** [struct.pack] on the header format *)

Lemma pack_wav_header chunk_size sample_rate byte_rate block_align bits data_size :
  Struct.pack wav_header_format
    [Struct.Bytes (b "RIFF"); Struct.Int chunk_size; Struct.Bytes (b "WAVE");
     Struct.Bytes (b "fmt "); Struct.Int 16; Struct.Int 1; Struct.Int 1;
     Struct.Int sample_rate; Struct.Int byte_rate; Struct.Int block_align;
     Struct.Int bits; Struct.Bytes (b "data"); Struct.Int data_size]
  = if Struct.in_range 4 chunk_size && Struct.in_range 4 sample_rate
       && Struct.in_range 4 byte_rate && Struct.in_range 2 block_align
       && Struct.in_range 2 bits && Struct.in_range 4 data_size
    then Ok (b "RIFF" ++ uint32_le chunk_size ++ b "WAVE" ++ b "fmt "
             ++ uint32_le 16 ++ uint16_le 1 ++ uint16_le 1
             ++ uint32_le sample_rate ++ uint32_le byte_rate
             ++ uint16_le block_align ++ uint16_le bits
             ++ b "data" ++ uint32_le data_size)
    else Raise StructError.
Proof.
  unfold wav_header_format.
  cbn [Struct.pack Struct.pack_item]. unfold Struct.pack_uint.
  change (Struct.in_range 4 16) with true.
  change (Struct.in_range 2 1) with true.
  rewrite <- !le_bytes_uint32, <- !le_bytes_uint16.
  destruct (Struct.in_range 4 chunk_size); cbn [bind andb]; [|reflexivity].
  destruct (Struct.in_range 4 sample_rate); cbn [bind andb]; [|reflexivity].
  destruct (Struct.in_range 4 byte_rate); cbn [bind andb]; [|reflexivity].
  destruct (Struct.in_range 2 block_align); cbn [bind andb]; [|reflexivity].
  destruct (Struct.in_range 2 bits); cbn [bind andb]; [|reflexivity].
  destruct (Struct.in_range 4 data_size); cbn [bind andb]; [|reflexivity].
  reflexivity.
Qed.

(** ** [convert_to_wav] *)

(** The range checks of the packing step, in packing order. *)
Lemma header_packs_iff (p : AudioParams) (n : Z) :
  0 <= n ->
  Struct.in_range 4 (36 + n) && Struct.in_range 4 (rate p)
  && Struct.in_range 4 (rate p * spec_block_align (bits_per_sample p))
  && Struct.in_range 2 (spec_block_align (bits_per_sample p))
  && Struct.in_range 2 (bits_per_sample p) && Struct.in_range 4 n = true
  <-> header_fields_fit p n.
Proof.
  intros Hn. unfold header_fields_fit.
  rewrite !andb_true_iff, !in_range_uint32, !in_range_uint16.
  unfold fits_uint32, fits_uint16. lia.
Qed.

Lemma convert_to_wav_unfold audio_data mime p :
  parse_audio_mime_type mime = Ok p ->
  convert_to_wav audio_data mime
  = if Struct.in_range 4 (36 + Z.of_nat (List.length audio_data))
       && Struct.in_range 4 (rate p)
       && Struct.in_range 4 (rate p * spec_block_align (bits_per_sample p))
       && Struct.in_range 2 (spec_block_align (bits_per_sample p))
       && Struct.in_range 2 (bits_per_sample p)
       && Struct.in_range 4 (Z.of_nat (List.length audio_data))
    then Ok (spec_wav_header (bits_per_sample p) (rate p)
               (Z.of_nat (List.length audio_data)) ++ audio_data)
    else Raise StructError.
Proof.
  intros H. unfold convert_to_wav. rewrite H, bind_Ok. cbv zeta.
  fold (spec_block_align (bits_per_sample p)).
  rewrite pack_wav_header.
  match goal with |- context [if ?c then _ else _] => destruct c end;
    reflexivity.
Qed.

Lemma convert_to_wav_fit audio_data mime p :
  parse_audio_mime_type mime = Ok p ->
  header_fields_fit p (Z.of_nat (List.length audio_data)) ->
  convert_to_wav audio_data mime
  = Ok (spec_wav_header (bits_per_sample p) (rate p)
          (Z.of_nat (List.length audio_data)) ++ audio_data).
Proof.
  intros H F. rewrite (convert_to_wav_unfold _ _ _ H).
  apply header_packs_iff in F; [|lia]. now rewrite F.
Qed.

Lemma convert_to_wav_unfit audio_data mime p :
  parse_audio_mime_type mime = Ok p ->
  ~ header_fields_fit p (Z.of_nat (List.length audio_data)) ->
  convert_to_wav audio_data mime = Raise StructError.
Proof.
  intros H F. rewrite (convert_to_wav_unfold _ _ _ H).
  match goal with |- context [if ?c then _ else _] => destruct c eqn:E end;
    [|reflexivity].
  apply header_packs_iff in E; [contradiction | lia].
Qed.

Lemma spec_wav_header_length bits sample_rate n :
  List.length (spec_wav_header bits sample_rate n) = 44%nat.
Proof. reflexivity. Qed.

Lemma payload_region header (audio_data : bytes) :
  List.length header = 44%nat -> skipn 44 (header ++ audio_data) = audio_data.
Proof.
  intros H. rewrite skipn_app, H, Nat.sub_diag.
  rewrite skipn_all2 by lia. reflexivity.
Qed.

Lemma read_uint32_of offset buf v :
  fits_uint32 v -> firstn 4 (skipn offset buf) = uint32_le v ->
  read_uint offset 4 buf = v.
Proof.
  intros H E. unfold read_uint. rewrite E, <- le_bytes_uint32.
  apply le_value_le_bytes.
  unfold fits_uint32 in H. change (256 ^ Z.of_nat 4) with 4294967296. lia.
Qed.

Lemma read_uint16_of offset buf v :
  fits_uint16 v -> firstn 2 (skipn offset buf) = uint16_le v ->
  read_uint offset 2 buf = v.
Proof.
  intros H E. unfold read_uint. rewrite E, <- le_bytes_uint16.
  apply le_value_le_bytes.
  unfold fits_uint16 in H. change (256 ^ Z.of_nat 2) with 65536. lia.
Qed.

(** Reading the header back gives the values it was built from. *)
Lemma read_wav_header_spec (p : AudioParams) (n : Z) (audio_data : bytes) :
  0 <= n -> header_fields_fit p n ->
  read_wav_header (spec_wav_header (bits_per_sample p) (rate p) n ++ audio_data)
  = mkWavFields (36 + n) 1 1 (rate p)
      (rate p * spec_block_align (bits_per_sample p))
      (spec_block_align (bits_per_sample p)) (bits_per_sample p) n.
Proof.
  intros Hn (F1 & F2 & F3 & F4 & F5).
  unfold read_wav_header.
  f_equal;
    (first [apply read_uint32_of | apply read_uint16_of];
     [first [assumption | unfold fits_uint32, fits_uint16 in *; lia]
     | reflexivity]).
Qed.

(** C2, amended.  When the header fields fit their widths,
    [convert_to_wav] returns the 44 header bytes of the specification's
    layout (little-endian: RIFF, 36 + dataSize, WAVE, fmt, 16, 1, 1
    channel, sample rate, byte rate, block align, bits per sample, data,
    dataSize) followed by the payload, and reading the header fields
    back gives the values they were built from. *)
Theorem convert_to_wav_layout (audio_data : bytes) (mime : string) (p : AudioParams) :
  parse_audio_mime_type mime = Ok p ->
  header_fields_fit p (Z.of_nat (List.length audio_data)) ->
  convert_to_wav audio_data mime
  = Ok (spec_wav_header (bits_per_sample p) (rate p)
          (Z.of_nat (List.length audio_data)) ++ audio_data)
  /\ List.length (spec_wav_header (bits_per_sample p) (rate p)
                    (Z.of_nat (List.length audio_data))) = 44%nat
  /\ read_wav_header
       (spec_wav_header (bits_per_sample p) (rate p)
          (Z.of_nat (List.length audio_data)) ++ audio_data)
     = mkWavFields (36 + Z.of_nat (List.length audio_data)) 1 1 (rate p)
         (rate p * spec_block_align (bits_per_sample p))
         (spec_block_align (bits_per_sample p)) (bits_per_sample p)
         (Z.of_nat (List.length audio_data)).
Proof.
  intros H F. split; [|split].
  - now apply convert_to_wav_fit.
  - apply spec_wav_header_length.
  - apply read_wav_header_spec; [lia | exact F].
Qed.

(** The example of the specification: 16 bits, 24000 Hz and 48000
    payload bytes give block align 2, byte rate 48000, data size 48000,
    RIFF chunk size 48036 and 48044 bytes in all. *)
Lemma convert_to_wav_one_second :
  exists wav,
    convert_to_wav one_second_of_silence "audio/L16;rate=24000" = Ok wav
    /\ List.length wav = Z.to_nat 48044
    /\ read_wav_header wav = mkWavFields 48036 1 1 24000 48000 2 16 48000.
Proof.
  assert (L : Z.of_nat (List.length one_second_of_silence) = 48000).
  { unfold one_second_of_silence. rewrite repeat_length. apply Z2Nat.id. lia. }
  assert (F : header_fields_fit (mkAudioParams 16 24000)
                (Z.of_nat (List.length one_second_of_silence))).
  { rewrite L. unfold header_fields_fit, fits_uint32, fits_uint16, spec_block_align.
    simpl. lia. }
  destruct (convert_to_wav_layout one_second_of_silence "audio/L16;rate=24000"
              (mkAudioParams 16 24000) eq_refl F) as (H1 & H2 & H3).
  eexists. split; [exact H1|]. split.
  - rewrite length_app, H2. unfold one_second_of_silence.
    rewrite repeat_length. lia.
  - rewrite H3, L. reflexivity.
Defined.

(** C2 as stated fails: a parsed bit depth of 65536 does not fit the
    16-bit header field, and no buffer is returned. *)
Lemma convert_to_wav_rejects_wide_samples :
  parse_audio_mime_type "audio/L65536" = Ok (mkAudioParams 65536 24000)
  /\ convert_to_wav [] "audio/L65536" = Raise StructError.
Proof. split; reflexivity. Qed.

(** C10.  [convert_to_wav] returns a buffer of 44 + payload length
    bytes when 36 + payload length, the byte rate and the sample rate
    fit an unsigned 32-bit field and the bit depth and the block align
    fit an unsigned 16-bit field; when one of them does not fit, the
    packing step fails. *)
Theorem convert_to_wav_succeeds_iff_fields_fit
    (audio_data : bytes) (mime : string) (p : AudioParams) :
  parse_audio_mime_type mime = Ok p ->
  (header_fields_fit p (Z.of_nat (List.length audio_data)) ->
   exists wav,
     convert_to_wav audio_data mime = Ok wav
     /\ List.length wav = (44 + List.length audio_data)%nat)
  /\ (~ header_fields_fit p (Z.of_nat (List.length audio_data)) ->
      convert_to_wav audio_data mime = Raise StructError).
Proof.
  intros H. split; intros F.
  - eexists. split; [exact (convert_to_wav_fit _ _ _ H F)|].
    now rewrite length_app, spec_wav_header_length.
  - now apply convert_to_wav_unfit with (p := p).
Qed.

Lemma convert_to_wav_bounds_example :
  (exists wav,
      convert_to_wav [x00; x01] "audio/L16;rate=24000" = Ok wav
      /\ List.length wav = 46%nat)
  /\ convert_to_wav [x00; x01] "audio/L16;rate=-1" = Raise StructError.
Proof.
  split.
  - apply (proj1 (convert_to_wav_succeeds_iff_fields_fit
                    [x00; x01] "audio/L16;rate=24000" (mkAudioParams 16 24000) eq_refl)).
    unfold header_fields_fit, fits_uint32, fits_uint16, spec_block_align.
    simpl. lia.
  - apply (proj2 (convert_to_wav_succeeds_iff_fields_fit
                    [x00; x01] "audio/L16;rate=-1" (mkAudioParams 16 (-1)) eq_refl)).
    unfold header_fields_fit, fits_uint32, fits_uint16. simpl. lia.
Defined.

(** ** The chunk collector *)

Lemma process_chunks_spec chunks buf :
  fold_left process_chunk chunks buf
  = mkBuffer (all_audio_chunks buf ++ payloads chunks)
      (match mime_type buf with
       | Some m => Some m
       | None => first_mime_type chunks
       end).
Proof.
  revert buf. induction chunks as [|c rest IH]; intros buf.
  - simpl. rewrite app_nil_r. now destruct buf as [l [m|]].
  - cbn [fold_left]. rewrite IH.
    destruct c as [| t | d]; cbn [process_chunk payloads first_mime_type].
    + reflexivity.
    + reflexivity.
    + cbn [all_audio_chunks mime_type]. rewrite <- app_assoc. cbn [app].
      f_equal. destruct (mime_type buf) as [m|]; [reflexivity|].
      now destruct (Blob.mime_type d).
Qed.

Lemma combine_chunks_from chunks (acc : bytes) :
  fold_left (fun combined_audio chunk => combined_audio ++ chunk) chunks acc
  = acc ++ List.concat chunks.
Proof.
  revert acc. induction chunks as [|c rest IH]; intros acc; simpl.
  - now rewrite app_nil_r.
  - now rewrite IH, app_assoc.
Qed.

Lemma combine_chunks_concat chunks : combine_chunks chunks = List.concat chunks.
Proof. unfold combine_chunks. now rewrite combine_chunks_from. Qed.

Section RetryLoop.

Variable tts : nat -> Stream.

(** The handler does not get past its first truth test: the bar of an
    attempt has no total. *)
Lemma close_bars_raises :
  close_bars (Some chunk_progress_bar) = Raise (TypeError Tqdm.bool_undefined).
Proof. reflexivity. Qed.

(** An attempt whose stream is exhausted normally ends the loop. *)
Lemma retry_loop_exhausted attempt rest buf :
  ending (tts attempt) = Exhausted ->
  retry_loop tts (attempt :: rest) buf
  = ([OpenStream attempt], Ok (process_stream buf (tts attempt))).
Proof. intros H. cbn [retry_loop]. now rewrite H. Qed.

(** So does an attempt whose stream breaks: the handler raises. *)
Lemma retry_loop_failed attempt rest buf m :
  ending (tts attempt) = Failed m ->
  retry_loop tts (attempt :: rest) buf
  = ([OpenStream attempt], Raise (TypeError Tqdm.bool_undefined)).
Proof. intros H. cbn [retry_loop]. rewrite H. now rewrite close_bars_raises. Qed.

Variable guess_extension : string -> option string.
Variables file_name script : string.

Lemma generate_after_success :
  ending (tts 0%nat) = Exhausted ->
  generate_podcast_audio tts guess_extension file_name script
  = (OpenStream 0
     :: fst (save_audio guess_extension file_name script
               (mkBuffer (payloads (elements (tts 0%nat)))
                  (first_mime_type (elements (tts 0%nat))))),
     snd (save_audio guess_extension file_name script
            (mkBuffer (payloads (elements (tts 0%nat)))
               (first_mime_type (elements (tts 0%nat)))))).
Proof.
  intros Hok. unfold generate_podcast_audio. cbn [MAX_RETRIES seq].
  rewrite (retry_loop_exhausted _ _ _ Hok). unfold process_stream.
  rewrite process_chunks_spec. cbn [all_audio_chunks mime_type app].
  now destruct (save_audio _ _ _ _).
Qed.

Lemma generate_after_failure m :
  ending (tts 0%nat) = Failed m ->
  generate_podcast_audio tts guess_extension file_name script
  = ([OpenStream 0], Raise (TypeError Tqdm.bool_undefined)).
Proof.
  intros H. unfold generate_podcast_audio. cbn [MAX_RETRIES seq].
  now rewrite (retry_loop_failed _ _ _ _ H).
Qed.

End RetryLoop.

(** What is saved when no usable MIME type was recorded. *)
Lemma save_audio_untyped guess_extension file_name script chunks :
  chunks <> [] ->
  save_audio guess_extension file_name script (mkBuffer chunks None)
  = match convert_to_wav (List.concat chunks) "audio/L16;rate=24000" with
    | Ok wav =>
        ([SaveText (file_name ++ ".txt")%string script;
          ConvertToWav "audio/L16;rate=24000";
          SaveBinary (file_name ++ ".wav")%string wav],
         Ok ((file_name ++ ".wav")%string, (file_name ++ ".txt")%string))
    | Raise e =>
        ([SaveText (file_name ++ ".txt")%string script;
          ConvertToWav "audio/L16;rate=24000"], Raise e)
    end.
Proof.
  intros H. unfold save_audio. cbn [all_audio_chunks mime_type truthy mime_type_or_default].
  destruct chunks as [|c l]; [contradiction|].
  now rewrite combine_chunks_concat.
Qed.


(** C3.  When the stream ends normally and has yielded no
    payload-bearing chunk, the collector raises the empty-audio error
    right after it: no further stream is opened, there is no pause, and
    [convert_to_wav] is not called.  The first stream is the only one
    that can end normally, since a stream that breaks ends the call. *)
Theorem empty_stream_is_terminal
    (tts : nat -> Stream) (guess_extension : string -> option string)
    (file_name script : string) :
  ending (tts 0%nat) = Exhausted ->
  payloads (elements (tts 0%nat)) = [] ->
  generate_podcast_audio tts guess_extension file_name script
  = ([OpenStream 0], Raise EmptyAudioError)
  /\ (forall attempt,
        In (OpenStream attempt)
          (fst (generate_podcast_audio tts guess_extension file_name script)) ->
        attempt = 0%nat)
  /\ (forall seconds,
        ~ In (Sleep seconds)
            (fst (generate_podcast_audio tts guess_extension file_name script)))
  /\ (forall m,
        ~ In (ConvertToWav m)
            (fst (generate_podcast_audio tts guess_extension file_name script))).
Proof.
  intros Hok Hnone.
  assert (R : generate_podcast_audio tts guess_extension file_name script
              = ([OpenStream 0], Raise EmptyAudioError)).
  { rewrite (generate_after_success tts guess_extension file_name script Hok).
    rewrite Hnone. reflexivity. }
  rewrite R. cbn [fst]. split; [reflexivity|]. split; [|split].
  - intros a [H|[]]. now injection H as <-.
  - intros n [H|[]]. discriminate.
  - intros m [H|[]]. discriminate.
Qed.

Lemma text_only_stream_is_terminal :
  generate_podcast_audio text_only (fun _ => None) "podcast_tides_20250101_120000"
    "Host1: Welcome."
  = ([OpenStream 0], Raise EmptyAudioError).
Proof.
  apply (empty_stream_is_terminal text_only (fun _ => None)
           "podcast_tides_20250101_120000" "Host1: Welcome.").
  - reflexivity.
  - reflexivity.
Defined.

(** C4 fails on the code.  With a service that raises a transport
    error at every attempt, one stream is opened; the handler raises
    [TypeError] at its first statement, before the pause and the retry.
    The events are not those of [MAX_RETRIES] attempts [RETRY_DELAY]
    seconds apart, and the exception is not the failure that names the
    three attempts and the last error. *)
Theorem service_down_is_not_retried
    (guess_extension : string -> option string) (file_name script : string) :
  (forall attempt, ending (always_failing attempt) = Failed "service unavailable")
  /\ generate_podcast_audio always_failing guess_extension file_name script
     = ([OpenStream 0], Raise (TypeError Tqdm.bool_undefined))
  /\ fst (generate_podcast_audio always_failing guess_extension file_name script)
     <> retry_events 0 (MAX_RETRIES - 1)
  /\ snd (generate_podcast_audio always_failing guess_extension file_name script)
     <> Raise (GenerationFailedError "service unavailable").
Proof.
  split; [reflexivity|].
  rewrite (generate_after_failure always_failing guess_extension file_name script
             "service unavailable" eq_refl).
  split; [reflexivity|]. split; discriminate.
Qed.

(** C7, amended.  For the chunks one attempt collects into empty
    buffers (at least one of them payload-bearing), when the header
    fields fit their widths, combining and encoding gives a WAV buffer
    whose bytes after the 44-byte header are the payloads in arrival
    order, concatenated. *)
Theorem collected_chunks_payload_region
    (s : Stream) (mime : string) (p : AudioParams) :
  payloads (elements s) <> [] ->
  parse_audio_mime_type mime = Ok p ->
  header_fields_fit p
    (Z.of_nat (List.length (List.concat (payloads (elements s))))) ->
  all_audio_chunks (process_stream (mkBuffer [] None) s) = payloads (elements s)
  /\ exists wav,
      convert_to_wav
        (combine_chunks (all_audio_chunks (process_stream (mkBuffer [] None) s)))
        mime = Ok wav
      /\ List.length wav
         = (44 + List.length (List.concat (payloads (elements s))))%nat
      /\ skipn 44 wav = List.concat (payloads (elements s)).
Proof.
  intros _ Hp Hfit. unfold process_stream.
  rewrite process_chunks_spec. cbn [all_audio_chunks app].
  split; [reflexivity|].
  rewrite combine_chunks_concat.
  eexists. split; [exact (convert_to_wav_fit _ _ _ Hp Hfit)|]. split.
  - now rewrite length_app, spec_wav_header_length.
  - apply payload_region, spec_wav_header_length.
Qed.

Lemma mixed_stream_payload_region :
  exists wav,
    convert_to_wav
      (combine_chunks (all_audio_chunks (process_stream (mkBuffer [] None) mixed_stream)))
      "audio/L16;rate=24000" = Ok wav
    /\ List.length wav = 49%nat
    /\ skipn 44 wav = [x01; x02; x03; x04; x05].
Proof.
  apply (collected_chunks_payload_region mixed_stream "audio/L16;rate=24000"
           (mkAudioParams 16 24000)).
  - discriminate.
  - reflexivity.
  - unfold header_fields_fit, fits_uint32, fits_uint16, spec_block_align.
    simpl. lia.
Defined.

(** C7 as stated fails: one collected chunk whose MIME type declares
    65536 bits per sample cannot be encoded, so no WAV buffer results. *)
Lemma wide_stream_is_not_encoded :
  payloads (elements wide_stream) = [[x00]]
  /\ convert_to_wav
       (combine_chunks (all_audio_chunks (process_stream (mkBuffer [] None) wide_stream)))
       "audio/L65536" = Raise StructError
  /\ generate_podcast_audio (fun _ => wide_stream) (fun _ => None)
       "podcast_tides_20250101_120000" "Host1: Welcome."
     = ([OpenStream 0;
         SaveText "podcast_tides_20250101_120000.txt" "Host1: Welcome.";
         ConvertToWav "audio/L65536"],
        Raise StructError).
Proof. repeat split; reflexivity. Qed.

(** C8.  Once the first payload-bearing chunk that carries a MIME type
    has been processed, that type is the recorded one, whatever chunks
    follow and whatever types they carry; it is the MIME type of the
    assembled audio. *)
Theorem first_mime_type_is_kept
    (buf : Buffer) (before : list Chunk) (inline_data : Blob.t) (m : string)
    (after : list Chunk) (e : StreamEnd) :
  mime_type buf = None ->
  first_mime_type before = None ->
  Blob.mime_type inline_data = Some m ->
  mime_type (fold_left process_chunk (before ++ [Inline inline_data]) buf) = Some m
  /\ (forall later,
        mime_type
          (fold_left process_chunk later
             (fold_left process_chunk (before ++ [Inline inline_data]) buf))
        = Some m)
  /\ mime_type
       (process_stream buf (mkStream (before ++ Inline inline_data :: after) e))
     = Some m.
Proof.
  intros Hbuf Hbefore Hm.
  assert (R : mime_type (fold_left process_chunk (before ++ [Inline inline_data]) buf)
              = Some m).
  { rewrite fold_left_app, !process_chunks_spec. cbn [mime_type].
    rewrite Hbuf, Hbefore. cbn [first_mime_type]. now rewrite Hm. }
  split; [exact R|]. split.
  - intros later. rewrite (process_chunks_spec later). cbn [mime_type].
    now rewrite R.
  - unfold process_stream. cbn [elements].
    change (before ++ Inline inline_data :: after)
      with (before ++ [Inline inline_data] ++ after).
    rewrite app_assoc, fold_left_app, (process_chunks_spec after).
    cbn [mime_type]. now rewrite R.
Qed.

Lemma mixed_stream_mime_type :
  mime_type (process_stream (mkBuffer [] None) mixed_stream)
  = Some "audio/L16;rate=24000".
Proof.
  apply (first_mime_type_is_kept (mkBuffer [] None)
           [TextOnly None; Inline untyped_chunk] typed_chunk
           "audio/L16;rate=24000" [NoParts; Inline other_chunk] Exhausted).
  - reflexivity.
  - reflexivity.
  - reflexivity.
Defined.

(** What [generate_podcast_audio] does once the stream has yielded
    payload-bearing chunks, none of them with a MIME type. *)
Lemma generate_untyped
    (tts : nat -> Stream) (guess_extension : string -> option string)
    (file_name script : string) :
  ending (tts 0%nat) = Exhausted ->
  payloads (elements (tts 0%nat)) <> [] ->
  first_mime_type (elements (tts 0%nat)) = None ->
  generate_podcast_audio tts guess_extension file_name script
  = match convert_to_wav (List.concat (payloads (elements (tts 0%nat))))
            "audio/L16;rate=24000" with
    | Ok wav =>
        ([OpenStream 0;
          SaveText (file_name ++ ".txt")%string script;
          ConvertToWav "audio/L16;rate=24000";
          SaveBinary (file_name ++ ".wav")%string wav],
         Ok ((file_name ++ ".wav")%string, (file_name ++ ".txt")%string))
    | Raise e =>
        ([OpenStream 0;
          SaveText (file_name ++ ".txt")%string script;
          ConvertToWav "audio/L16;rate=24000"], Raise e)
    end.
Proof.
  intros Hok Hsome Hnone.
  rewrite (generate_after_success tts guess_extension file_name script Hok).
  rewrite Hnone, (save_audio_untyped _ _ _ _ Hsome).
  now destruct (convert_to_wav _ _).
Qed.

Lemma default_header_fits (n : Z) :
  header_fields_fit (mkAudioParams 16 24000) n <-> fits_uint32 (36 + n).
Proof.
  unfold header_fields_fit, fits_uint32, fits_uint16, spec_block_align.
  simpl. lia.
Qed.

(** C9, amended.  When the stream yields payload-bearing chunks, none
    of them with a MIME type, and 36 + the payload length fits the
    32-bit RIFF size, [convert_to_wav] is called with the default
    ["audio/L16;rate=24000"], which parses to 16 bits and 24000 Hz; the
    file saved is named [.wav] and holds the header of a 16-bit,
    24000 Hz, one-channel WAV followed by the payload. *)
Theorem untyped_audio_is_encoded_with_default
    (tts : nat -> Stream) (guess_extension : string -> option string)
    (file_name script : string) :
  ending (tts 0%nat) = Exhausted ->
  payloads (elements (tts 0%nat)) <> [] ->
  first_mime_type (elements (tts 0%nat)) = None ->
  fits_uint32
    (36 + Z.of_nat (List.length (List.concat (payloads (elements (tts 0%nat)))))) ->
  parse_audio_mime_type "audio/L16;rate=24000" = Ok (mkAudioParams 16 24000)
  /\ generate_podcast_audio tts guess_extension file_name script
     = ([OpenStream 0;
         SaveText (file_name ++ ".txt")%string script;
         ConvertToWav "audio/L16;rate=24000";
         SaveBinary (file_name ++ ".wav")%string
           (spec_wav_header 16 24000
              (Z.of_nat (List.length (List.concat (payloads (elements (tts 0%nat))))))
            ++ List.concat (payloads (elements (tts 0%nat))))],
        Ok ((file_name ++ ".wav")%string, (file_name ++ ".txt")%string))
  /\ read_wav_header
       (spec_wav_header 16 24000
          (Z.of_nat (List.length (List.concat (payloads (elements (tts 0%nat))))))
        ++ List.concat (payloads (elements (tts 0%nat))))
     = mkWavFields
         (36 + Z.of_nat (List.length (List.concat (payloads (elements (tts 0%nat))))))
         1 1 24000 48000 2 16
         (Z.of_nat (List.length (List.concat (payloads (elements (tts 0%nat)))))).
Proof.
  intros Hok Hsome Hnone Hfit.
  apply default_header_fits in Hfit.
  split; [reflexivity|]. split.
  - rewrite (generate_untyped tts guess_extension file_name script
               Hok Hsome Hnone).
    now rewrite (convert_to_wav_fit _ "audio/L16;rate=24000"
                   (mkAudioParams 16 24000) eq_refl Hfit).
  - apply (read_wav_header_spec (mkAudioParams 16 24000)); [lia | exact Hfit].
Qed.

Lemma untyped_stream_is_saved_as_wav :
  generate_podcast_audio untyped_stream (fun _ => Some ".bin")
    "podcast_tides_20250101_120000" "Host1: Welcome."
  = ([OpenStream 0;
      SaveText "podcast_tides_20250101_120000.txt" "Host1: Welcome.";
      ConvertToWav "audio/L16;rate=24000";
      SaveBinary "podcast_tides_20250101_120000.wav"
        (spec_wav_header 16 24000 3 ++ [x01; x02; x03])],
     Ok ("podcast_tides_20250101_120000.wav", "podcast_tides_20250101_120000.txt")).
Proof.
  apply (untyped_audio_is_encoded_with_default untyped_stream
           (fun _ => Some ".bin") "podcast_tides_20250101_120000"
           "Host1: Welcome.").
  - reflexivity.
  - discriminate.
  - reflexivity.
  - unfold fits_uint32. simpl. lia.
Defined.

(** With the default MIME type only the payload length can be out of
    range. *)
Lemma convert_to_wav_default_oversized (audio_data : bytes) :
  4294967260 <= Z.of_nat (List.length audio_data) ->
  convert_to_wav audio_data "audio/L16;rate=24000" = Raise StructError.
Proof.
  intros H.
  apply (convert_to_wav_unfit audio_data "audio/L16;rate=24000"
           (mkAudioParams 16 24000) eq_refl).
  rewrite default_header_fits. unfold fits_uint32. lia.
Qed.

Lemma oversized_chunk_length :
  4294967260 <= Z.of_nat (List.length (repeat x00 (Z.to_nat 4294967260))).
Proof. rewrite repeat_length, Z2Nat.id; lia. Qed.

Lemma oversized_stream_payloads :
  payloads (elements (oversized_stream 0)) = [repeat x00 (Z.to_nat 4294967260)].
Proof. reflexivity. Qed.

(** C9 as stated fails: a payload of 4294967260 bytes without MIME type
    is handed to [convert_to_wav] with the default MIME type, the RIFF
    size 4294967296 does not fit its field, and nothing is saved. *)
Lemma oversized_untyped_audio_is_not_saved :
  generate_podcast_audio oversized_stream (fun _ => None)
    "podcast_tides_20250101_120000" "Host1: Welcome."
  = ([OpenStream 0;
      SaveText "podcast_tides_20250101_120000.txt" "Host1: Welcome.";
      ConvertToWav "audio/L16;rate=24000"],
     Raise StructError).
Proof.
  rewrite (generate_untyped oversized_stream (fun _ => None)
             "podcast_tides_20250101_120000" "Host1: Welcome.").
  - rewrite oversized_stream_payloads. cbn [List.concat]. rewrite app_nil_r.
    rewrite (convert_to_wav_default_oversized _ oversized_chunk_length).
    reflexivity.
  - reflexivity.
  - rewrite oversized_stream_payloads. discriminate.
  - reflexivity.
Qed.

(** * Further properties of the code *)

(** ** Strings *)

Lemma in_chars_String c d s : In c (chars (String d s)) <-> c = d \/ In c (chars s).
Proof. unfold chars. simpl. intuition congruence. Qed.

Lemma lstrip_subset c s : In c (chars (Py.lstrip s)) -> In c (chars s).
Proof.
  induction s as [|d s IH]; simpl; [tauto|].
  destruct (Py.isspace d).
  - intros H. apply in_chars_String. right. now apply IH.
  - tauto.
Qed.

Lemma rstrip_subset c s : In c (chars (Py.rstrip s)) -> In c (chars s).
Proof.
  induction s as [|d s IH]; [simpl; tauto|].
  cbn [Py.rstrip]. intros H. apply in_chars_String.
  destruct (Py.rstrip s) as [|e r].
  - destruct (Py.isspace d); [destruct H|].
    apply in_chars_String in H. destruct H as [H|[]]. now left.
  - apply in_chars_String in H. destruct H as [H|H]; [now left|right; now apply IH].
Qed.

Lemma strip_subset c s : In c (chars (Py.strip s)) -> In c (chars s).
Proof. intros H. now apply lstrip_subset, rstrip_subset. Qed.

Lemma substring_prefix_subset c n s :
  In c (chars (substring 0 n s)) -> In c (chars s).
Proof.
  revert s. induction n as [|n IH]; intros [|d s]; simpl; try tauto.
  intros H. apply in_chars_String in H. apply in_chars_String.
  destruct H as [H|H]; [now left | right; now apply IH].
Qed.

Lemma substring_prefix_length n s : (String.length (substring 0 n s) <= n)%nat.
Proof.
  revert s. induction n as [|n IH]; intros [|d s]; simpl; try lia.
  specialize (IH s). lia.
Qed.

Lemma substring_prefix_short n s :
  (String.length s <= n)%nat -> substring 0 n s = s.
Proof.
  revert s. induction n as [|n IH]; intros [|d s]; simpl; intros H;
    try reflexivity; try lia.
  f_equal. apply IH. lia.
Qed.

Lemma lstrip_length s : (String.length (Py.lstrip s) <= String.length s)%nat.
Proof.
  induction s as [|d s IH]; simpl; [lia|].
  destruct (Py.isspace d); simpl; lia.
Qed.

Lemma rstrip_length s : (String.length (Py.rstrip s) <= String.length s)%nat.
Proof.
  induction s as [|d s IH]; [simpl; lia|].
  cbn [Py.rstrip]. destruct (Py.rstrip s) as [|e r].
  - destruct (Py.isspace d); simpl; lia.
  - simpl in *. lia.
Qed.

Lemma strip_length s : (String.length (Py.strip s) <= String.length s)%nat.
Proof.
  unfold Py.strip. pose proof (rstrip_length (Py.lstrip s)).
  pose proof (lstrip_length s). lia.
Qed.

Lemma replace_char_length a b0 s :
  String.length (Py.replace_char a b0 s) = String.length s.
Proof. induction s as [|d s IH]; simpl; [reflexivity | now rewrite IH]. Qed.

Lemma in_replace_char c a b0 s :
  In c (chars (Py.replace_char a b0 s)) ->
  (c = b0 /\ In a (chars s)) \/ (c <> a /\ In c (chars s)).
Proof.
  induction s as [|d s IH]; [simpl; tauto|].
  cbn [Py.replace_char]. intros H. apply in_chars_String in H.
  destruct H as [H|H].
  - destruct (Ascii.eqb_spec d a) as [->|N].
    + left. split; [exact H | apply in_chars_String; now left].
    + right. subst c. split; [exact N | apply in_chars_String; now left].
  - destruct (IH H) as [[E I]|[N I]].
    + left. split; [exact E | apply in_chars_String; now right].
    + right. split; [exact N | apply in_chars_String; now right].
Qed.

Lemma in_re_sub_class kept c s :
  In c (chars (re_sub_class kept s)) -> kept c = true /\ In c (chars s).
Proof.
  induction s as [|d s IH]; [simpl; tauto|].
  cbn [re_sub_class]. destruct (kept d) eqn:K; intros H.
  - apply in_chars_String in H. destruct H as [->|H].
    + split; [exact K | apply in_chars_String; now left].
    + destruct (IH H). split; [assumption | apply in_chars_String; now right].
  - destruct (IH H). split; [assumption | apply in_chars_String; now right].
Qed.

Lemma re_sub_class_fixed kept s :
  (forall c, In c (chars s) -> kept c = true) -> re_sub_class kept s = s.
Proof.
  induction s as [|d s IH]; intros H; [reflexivity|].
  cbn [re_sub_class]. rewrite (H d) by (apply in_chars_String; now left).
  f_equal. apply IH. intros c Hc. apply H, in_chars_String. now right.
Qed.

Lemma replace_char_fixed a b0 s :
  ~ In a (chars s) -> Py.replace_char a b0 s = s.
Proof.
  induction s as [|d s IH]; intros H; [reflexivity|].
  cbn [Py.replace_char].
  destruct (Ascii.eqb_spec d a) as [->|N].
  - exfalso. apply H, in_chars_String. now left.
  - f_equal. apply IH. intros I. apply H, in_chars_String. now right.
Qed.

Lemma lstrip_fixed_head d s :
  Py.lstrip (String d s) = String d s -> Py.isspace d = false.
Proof.
  simpl. destruct (Py.isspace d); [|reflexivity].
  intros H. pose proof (lstrip_length s) as L. rewrite H in L. simpl in L. lia.
Qed.

Lemma rstrip_idempotent s : Py.rstrip (Py.rstrip s) = Py.rstrip s.
Proof.
  induction s as [|d s IH]; [reflexivity|].
  cbn [Py.rstrip]. destruct (Py.rstrip s) as [|e r] eqn:E.
  - destruct (Py.isspace d) eqn:S; [reflexivity|].
    cbn [Py.rstrip]. now rewrite S.
  - cbn [Py.rstrip]. cbn [Py.rstrip] in IH. now rewrite IH.
Qed.

Lemma lstrip_rstrip s : Py.lstrip s = s -> Py.lstrip (Py.rstrip s) = Py.rstrip s.
Proof.
  destruct s as [|d s]; [reflexivity|].
  intros H. apply lstrip_fixed_head in H.
  cbn [Py.rstrip]. destruct (Py.rstrip s); [rewrite H|]; simpl; now rewrite H.
Qed.

Lemma lstrip_idempotent s : Py.lstrip (Py.lstrip s) = Py.lstrip s.
Proof.
  induction s as [|d s IH]; [reflexivity|].
  simpl. destruct (Py.isspace d) eqn:S; [exact IH|].
  simpl. now rewrite S.
Qed.

(** A stripped string starts and ends with no whitespace. *)
Lemma strip_edges s :
  Py.lstrip (Py.strip s) = Py.strip s /\ Py.rstrip (Py.strip s) = Py.strip s.
Proof.
  unfold Py.strip. split.
  - apply lstrip_rstrip, lstrip_idempotent.
  - apply rstrip_idempotent.
Qed.

Lemma replace_space_keeps c :
  Py.isspace c = false -> (if Ascii.eqb c " " then "_"%char else c) = c.
Proof.
  intros H. destruct (Ascii.eqb_spec c " "%char) as [->|]; [discriminate H|reflexivity].
Qed.

Lemma lstrip_replace_space s :
  Py.lstrip s = s -> Py.lstrip (Py.replace_char " " "_" s) = Py.replace_char " " "_" s.
Proof.
  destruct s as [|d s]; [reflexivity|].
  intros H. apply lstrip_fixed_head in H.
  cbn [Py.replace_char]. rewrite (replace_space_keeps d H). simpl. now rewrite H.
Qed.

Lemma rstrip_replace_space s :
  Py.rstrip s = s -> Py.rstrip (Py.replace_char " " "_" s) = Py.replace_char " " "_" s.
Proof.
  induction s as [|d s IH]; [reflexivity|].
  cbn [Py.rstrip Py.replace_char]. destruct (Py.rstrip s) as [|e r] eqn:E.
  - destruct (Py.isspace d) eqn:S; [discriminate|].
    intros H. injection H as <-. cbn [Py.replace_char Py.rstrip].
    now rewrite (replace_space_keeps d S), S.
  - intros H. injection H as H. rewrite <- H in *.
    rewrite (IH eq_refl). cbn [Py.replace_char]. reflexivity.
Qed.

Lemma sanitized_topic_chars topic c :
  In c (chars (sanitized_topic topic)) ->
  topic_char_kept c = true /\ c <> " "%char.
Proof.
  unfold sanitized_topic. intros H. apply in_replace_char in H.
  destruct H as [[-> _]|[N H]].
  - split; [reflexivity | discriminate].
  - split; [|exact N].
    apply strip_subset, substring_prefix_subset, in_re_sub_class in H. tauto.
Qed.

Lemma sanitized_topic_length topic : (String.length (sanitized_topic topic) <= 30)%nat.
Proof.
  unfold sanitized_topic. rewrite replace_char_length.
  pose proof (strip_length (substring 0 30 (re_sub_class topic_char_kept topic))).
  pose proof (substring_prefix_length 30 (re_sub_class topic_char_kept topic)).
  lia.
Qed.

(** X1.  Whatever the topic, the sanitized topic has at most 30
    characters, each a word character, a hyphen or whitespace other than
    the blank; so it holds no path separator, no dot and no colon. *)
Theorem sanitized_topic_is_a_plain_name (topic : string) :
  (String.length (sanitized_topic topic) <= 30)%nat
  /\ (forall c, In c (chars (sanitized_topic topic)) ->
        (Py.isalnum c = true \/ c = "_"%char \/ c = "-"%char
         \/ Py.isspace c = true)
        /\ c <> " "%char)
  /\ ~ In "/"%char (chars (sanitized_topic topic))
  /\ ~ In "\"%char (chars (sanitized_topic topic))
  /\ ~ In "."%char (chars (sanitized_topic topic))
  /\ ~ In ":"%char (chars (sanitized_topic topic)).
Proof.
  split; [apply sanitized_topic_length|]. split.
  - intros c H. apply sanitized_topic_chars in H. destruct H as [K N].
    split; [|exact N]. unfold topic_char_kept in K.
    rewrite !orb_true_iff in K.
    destruct K as [[[K|K]|K]|K]; auto.
    + apply Ascii.eqb_eq in K. auto.
    + apply Ascii.eqb_eq in K. auto.
  - repeat split; intros H; apply sanitized_topic_chars in H;
      destruct H as [K _]; discriminate K.
Qed.

(** X2.  Sanitizing is idempotent: a sanitized topic is left as it is
    when it is sanitized again. *)
Theorem sanitized_topic_idempotent (topic : string) :
  sanitized_topic (sanitized_topic topic) = sanitized_topic topic.
Proof.
  set (r := sanitized_topic topic).
  unfold sanitized_topic at 1.
  rewrite (re_sub_class_fixed topic_char_kept r)
    by (intros c H; now apply sanitized_topic_chars in H).
  rewrite (substring_prefix_short 30 r) by apply sanitized_topic_length.
  assert (E : Py.strip r = r).
  { unfold Py.strip, r, sanitized_topic.
    destruct (strip_edges (substring 0 30 (re_sub_class topic_char_kept topic)))
      as [L R].
    rewrite (lstrip_replace_space _ L). now apply rstrip_replace_space. }
  rewrite E. apply replace_char_fixed.
  intros H. apply sanitized_topic_chars in H. destruct H as [_ N]. now apply N.
Qed.

(** ** The collector beyond the claims *)

Lemma payloads_app a c : payloads (a ++ c) = payloads a ++ payloads c.
Proof.
  induction a as [|x a IH]; [reflexivity|].
  destruct x; simpl; now rewrite ?IH.
Qed.

Lemma first_mime_type_payloads l m :
  first_mime_type l = Some m -> payloads l <> [].
Proof.
  induction l as [|x l IH]; [discriminate|].
  destruct x; simpl; auto. discriminate.
Qed.

Lemma save_audio_known guess_extension file_name script chunks m ext :
  chunks <> [] -> m <> EmptyString -> guess_extension m = Some ext ->
  save_audio guess_extension file_name script (mkBuffer chunks (Some m))
  = ([SaveText (file_name ++ ".txt")%string script;
      SaveBinary (file_name ++ ext)%string (List.concat chunks)],
     Ok ((file_name ++ ext)%string, (file_name ++ ".txt")%string)).
Proof.
  intros Hc Hm Hg. unfold save_audio.
  cbn [all_audio_chunks mime_type].
  destruct chunks as [|c l]; [contradiction|].
  destruct m as [|a r]; [contradiction|].
  cbn [truthy mime_type_or_default]. rewrite Hg.
  now rewrite combine_chunks_concat.
Qed.

Lemma save_audio_unknown guess_extension file_name script chunks m :
  chunks <> [] -> m <> EmptyString -> guess_extension m = None ->
  save_audio guess_extension file_name script (mkBuffer chunks (Some m))
  = match convert_to_wav (List.concat chunks) m with
    | Ok wav =>
        ([SaveText (file_name ++ ".txt")%string script;
          ConvertToWav m;
          SaveBinary (file_name ++ ".wav")%string wav],
         Ok ((file_name ++ ".wav")%string, (file_name ++ ".txt")%string))
    | Raise e =>
        ([SaveText (file_name ++ ".txt")%string script; ConvertToWav m], Raise e)
    end.
Proof.
  intros Hc Hm Hg. unfold save_audio.
  cbn [all_audio_chunks mime_type].
  destruct chunks as [|c l]; [contradiction|].
  destruct m as [|a r]; [contradiction|].
  cbn [truthy mime_type_or_default]. rewrite Hg.
  now rewrite combine_chunks_concat.
Qed.

Lemma save_audio_blank guess_extension file_name script chunks :
  chunks <> [] ->
  save_audio guess_extension file_name script (mkBuffer chunks (Some EmptyString))
  = save_audio guess_extension file_name script (mkBuffer chunks None).
Proof.
  intros Hc. unfold save_audio. cbn [all_audio_chunks mime_type].
  destruct chunks as [|c l]; [contradiction|]. reflexivity.
Qed.

(** X3.  When the recorded MIME type has a known file extension, the
    payloads are saved as they came, concatenated in arrival order,
    under that extension, and [convert_to_wav] is not called. *)
Theorem known_extension_saves_raw_audio
    (tts : nat -> Stream) (guess_extension : string -> option string)
    (file_name script : string) (m ext : string) :
  ending (tts 0%nat) = Exhausted ->
  first_mime_type (elements (tts 0%nat)) = Some m ->
  m <> EmptyString ->
  guess_extension m = Some ext ->
  generate_podcast_audio tts guess_extension file_name script
  = ([OpenStream 0;
      SaveText (file_name ++ ".txt")%string script;
      SaveBinary (file_name ++ ext)%string
        (List.concat (payloads (elements (tts 0%nat))))],
     Ok ((file_name ++ ext)%string, (file_name ++ ".txt")%string)).
Proof.
  intros Hok Hm Hne Hg.
  rewrite (generate_after_success tts guess_extension file_name script Hok).
  rewrite Hm.
  now rewrite (save_audio_known _ _ _ _ m ext (first_mime_type_payloads _ _ Hm) Hne Hg).
Qed.

Lemma mpeg_stream_is_saved_raw :
  generate_podcast_audio mpeg_stream mpeg_only
    "podcast_tides_20250101_120000" "Host1: Welcome."
  = ([OpenStream 0;
      SaveText "podcast_tides_20250101_120000.txt" "Host1: Welcome.";
      SaveBinary "podcast_tides_20250101_120000.mp3" [x01; x02; x03]],
     Ok ("podcast_tides_20250101_120000.mp3", "podcast_tides_20250101_120000.txt")).
Proof.
  apply (known_extension_saves_raw_audio mpeg_stream mpeg_only
           "podcast_tides_20250101_120000" "Host1: Welcome."
           "audio/mpeg" ".mp3").
  - reflexivity.
  - reflexivity.
  - discriminate.
  - reflexivity.
Defined.

(** X4.  When the recorded MIME type has no known file extension, the
    audio is encoded with the parameters that type declares: the file
    saved is named [.wav] and holds the header for those parameters
    followed by the payloads in arrival order. *)
Theorem unknown_extension_encodes_with_recorded_type
    (tts : nat -> Stream) (guess_extension : string -> option string)
    (file_name script : string) (m : string) (p : AudioParams) :
  ending (tts 0%nat) = Exhausted ->
  first_mime_type (elements (tts 0%nat)) = Some m ->
  m <> EmptyString ->
  guess_extension m = None ->
  parse_audio_mime_type m = Ok p ->
  header_fields_fit p
    (Z.of_nat (List.length (List.concat (payloads (elements (tts 0%nat)))))) ->
  generate_podcast_audio tts guess_extension file_name script
  = ([OpenStream 0;
      SaveText (file_name ++ ".txt")%string script;
      ConvertToWav m;
      SaveBinary (file_name ++ ".wav")%string
        (spec_wav_header (bits_per_sample p) (rate p)
           (Z.of_nat (List.length (List.concat (payloads (elements (tts 0%nat))))))
         ++ List.concat (payloads (elements (tts 0%nat))))],
     Ok ((file_name ++ ".wav")%string, (file_name ++ ".txt")%string)).
Proof.
  intros Hok Hm Hne Hg Hp Hfit.
  rewrite (generate_after_success tts guess_extension file_name script Hok).
  rewrite Hm.
  rewrite (save_audio_unknown _ _ _ _ m (first_mime_type_payloads _ _ Hm) Hne Hg).
  now rewrite (convert_to_wav_fit _ _ _ Hp Hfit).
Qed.

Lemma typed_then_untyped_is_encoded :
  generate_podcast_audio typed_then_untyped (fun _ => None)
    "podcast_tides_20250101_120000" "Host1: Welcome."
  = ([OpenStream 0;
      SaveText "podcast_tides_20250101_120000.txt" "Host1: Welcome.";
      ConvertToWav "audio/L24;rate=48000";
      SaveBinary "podcast_tides_20250101_120000.wav"
        (spec_wav_header 24 48000 4 ++ [x01; x02; x03; x04])],
     Ok ("podcast_tides_20250101_120000.wav", "podcast_tides_20250101_120000.txt")).
Proof.
  apply (unknown_extension_encodes_with_recorded_type typed_then_untyped
           (fun _ => None) "podcast_tides_20250101_120000" "Host1: Welcome."
           "audio/L24;rate=48000" (mkAudioParams 24 48000)).
  - reflexivity.
  - reflexivity.
  - discriminate.
  - reflexivity.
  - reflexivity.
  - unfold header_fields_fit, fits_uint32, fits_uint16, spec_block_align.
    simpl. lia.
Defined.

(** X5.  What a stream has delivered before it breaks is lost with the
    call: however many chunks were collected, the handler raises
    [TypeError] at its first statement; neither the script nor any
    audio is saved, and the error raised does not carry the text of the
    transport error. *)
Theorem stream_error_loses_collected_chunks
    (tts : nat -> Stream) (guess_extension : string -> option string)
    (file_name script : string) (error_message : string) :
  ending (tts 0%nat) = Failed error_message ->
  generate_podcast_audio tts guess_extension file_name script
  = ([OpenStream 0], Raise (TypeError Tqdm.bool_undefined))
  /\ (forall name text,
        ~ In (SaveText name text)
            (fst (generate_podcast_audio tts guess_extension file_name script)))
  /\ (forall name data,
        ~ In (SaveBinary name data)
            (fst (generate_podcast_audio tts guess_extension file_name script)))
  /\ snd (generate_podcast_audio tts guess_extension file_name script)
     <> Raise (Exception (failed_message error_message)).
Proof.
  intros H.
  rewrite (generate_after_failure tts guess_extension file_name script _ H).
  cbn [fst snd]. split; [reflexivity|]. split; [|split].
  - intros name text [E|[]]. discriminate.
  - intros name data [E|[]]. discriminate.
  - discriminate.
Qed.

Lemma two_collected_chunks_are_lost :
  payloads (elements (breaks_after_two_chunks 0)) = [[x01]; [x02; x03; x04]]
  /\ generate_podcast_audio breaks_after_two_chunks (fun _ => None)
       "podcast_tides_20250101_120000" "Host1: Welcome."
     = ([OpenStream 0], Raise (TypeError Tqdm.bool_undefined)).
Proof.
  split; [reflexivity|].
  apply (stream_error_loses_collected_chunks breaks_after_two_chunks (fun _ => None)
           "podcast_tides_20250101_120000" "Host1: Welcome." "connection reset").
  reflexivity.
Defined.

Lemma save_audio_events guess_extension file_name script buf :
  forallb after_loop_event (fst (save_audio guess_extension file_name script buf))
  = true.
Proof.
  unfold save_audio.
  destruct (all_audio_chunks buf); [reflexivity|].
  destruct (if truthy (mime_type buf) then _ else _); [reflexivity|].
  now destruct (convert_to_wav _ _).
Qed.

(** X6.  Whatever the streams do, the call opens exactly one of them
    and never pauses to retry: the stream either ends normally, and the
    loop is left, or it breaks, and the handler raises.  Every later
    event is saving or encoding. *)
Theorem only_one_stream_is_opened
    (tts : nat -> Stream) (guess_extension : string -> option string)
    (file_name script : string) :
  exists rest,
    fst (generate_podcast_audio tts guess_extension file_name script)
    = OpenStream 0 :: rest
    /\ forallb after_loop_event rest = true.
Proof.
  destruct (ending (tts 0%nat)) as [|m] eqn:E.
  - eexists.
    rewrite (generate_after_success tts guess_extension file_name script E).
    cbn [fst]. split; [reflexivity | apply save_audio_events].
  - exists [].
    rewrite (generate_after_failure tts guess_extension file_name script m E).
    split; reflexivity.
Qed.

(** X7.  A MIME type that is the empty string is recorded like any
    other, so later chunks cannot replace it, and is then treated as
    missing: the audio is encoded with the default 16 bits and
    24000 Hz. *)
Theorem blank_mime_type_counts_as_missing
    (tts : nat -> Stream) (guess_extension : string -> option string)
    (file_name script : string) :
  ending (tts 0%nat) = Exhausted ->
  first_mime_type (elements (tts 0%nat)) = Some EmptyString ->
  fits_uint32
    (36 + Z.of_nat (List.length (List.concat (payloads (elements (tts 0%nat)))))) ->
  generate_podcast_audio tts guess_extension file_name script
  = ([OpenStream 0;
      SaveText (file_name ++ ".txt")%string script;
      ConvertToWav "audio/L16;rate=24000";
      SaveBinary (file_name ++ ".wav")%string
        (spec_wav_header 16 24000
           (Z.of_nat (List.length (List.concat (payloads (elements (tts 0%nat))))))
         ++ List.concat (payloads (elements (tts 0%nat))))],
     Ok ((file_name ++ ".wav")%string, (file_name ++ ".txt")%string)).
Proof.
  intros Hok Hm Hfit.
  pose proof (first_mime_type_payloads _ _ Hm) as Hsome.
  apply default_header_fits in Hfit.
  rewrite (generate_after_success tts guess_extension file_name script Hok).
  rewrite Hm, (save_audio_blank _ _ _ _ Hsome), (save_audio_untyped _ _ _ _ Hsome).
  now rewrite (convert_to_wav_fit _ "audio/L16;rate=24000"
                 (mkAudioParams 16 24000) eq_refl Hfit).
Qed.

Lemma blank_typed_stream_uses_default :
  generate_podcast_audio blank_typed_stream mpeg_only
    "podcast_tides_20250101_120000" "Host1: Welcome."
  = ([OpenStream 0;
      SaveText "podcast_tides_20250101_120000.txt" "Host1: Welcome.";
      ConvertToWav "audio/L16;rate=24000";
      SaveBinary "podcast_tides_20250101_120000.wav"
        (spec_wav_header 16 24000 2 ++ [x01; x02])],
     Ok ("podcast_tides_20250101_120000.wav", "podcast_tides_20250101_120000.txt")).
Proof.
  apply (blank_mime_type_counts_as_missing blank_typed_stream mpeg_only
           "podcast_tides_20250101_120000" "Host1: Welcome.").
  - reflexivity.
  - reflexivity.
  - unfold fits_uint32. simpl. lia.
Defined.




(** ** The encoder and the parser beyond the claims *)

(** X9.  A bit depth that is not a multiple of 8 is floored to whole
    bytes without complaint: the header's block align, times 8, is then
    less than the bit depth it is written next to, and below 8 bits the
    block align and the byte rate are 0. *)
Theorem partial_bytes_are_dropped (audio_data : bytes) (mime : string) (p : AudioParams) :
  parse_audio_mime_type mime = Ok p ->
  header_fields_fit p (Z.of_nat (List.length audio_data)) ->
  bits_per_sample p mod 8 <> 0 ->
  exists wav,
    convert_to_wav audio_data mime = Ok wav
    /\ bitsPerSample (read_wav_header wav) = bits_per_sample p
    /\ 8 * blockAlign (read_wav_header wav) < bits_per_sample p
    /\ (bits_per_sample p < 8 ->
        blockAlign (read_wav_header wav) = 0 /\ byteRate (read_wav_header wav) = 0).
Proof.
  intros Hp Hfit Hmod. eexists. split; [exact (convert_to_wav_fit _ _ _ Hp Hfit)|].
  rewrite (read_wav_header_spec p _ audio_data) by (lia || exact Hfit).
  cbn [bitsPerSample blockAlign byteRate]. unfold spec_block_align.
  destruct Hfit as (_ & _ & _ & [B _] & _).
  pose proof (Z.div_mod (bits_per_sample p) 8 ltac:(lia)) as D.
  pose proof (Z.mod_pos_bound (bits_per_sample p) 8 ltac:(lia)) as M.
  split; [reflexivity|]. split; [lia|].
  intros Hlt. rewrite (Z.div_small (bits_per_sample p) 8) by lia.
  split; [reflexivity | lia].
Qed.

Lemma four_bit_audio_has_no_block_align :
  exists wav,
    convert_to_wav [x00; x01; x02] "audio/L4;rate=8000" = Ok wav
    /\ bitsPerSample (read_wav_header wav) = 4
    /\ 8 * blockAlign (read_wav_header wav) < 4
    /\ (4 < 8 ->
        blockAlign (read_wav_header wav) = 0 /\ byteRate (read_wav_header wav) = 0).
Proof.
  apply (partial_bytes_are_dropped [x00; x01; x02] "audio/L4;rate=8000"
           (mkAudioParams 4 8000)).
  - reflexivity.
  - unfold header_fields_fit, fits_uint32, fits_uint16, spec_block_align.
    simpl. lia.
  - discriminate.
Defined.

Lemma split_nonempty sep s : Py.split sep s <> [].
Proof.
  destruct s as [|c s]; simpl; [discriminate|].
  destruct (Ascii.eqb c sep); [discriminate|].
  destruct (Py.split sep s); discriminate.
Qed.

Lemma split_app sep a c :
  Py.split sep (a ++ String sep c)%string = Py.split sep a ++ Py.split sep c.
Proof.
  induction a as [|d a IH]; simpl.
  - now rewrite Ascii.eqb_refl.
  - destruct (Ascii.eqb d sep); [now rewrite IH|].
    rewrite IH. pose proof (split_nonempty sep a) as N.
    destruct (Py.split sep a) as [|h t]; [contradiction|]. reflexivity.
Qed.

Lemma split_without_separator sep s :
  ~ In sep (chars s) -> Py.split sep s = [s].
Proof.
  induction s as [|d s IH]; intros H; [reflexivity|].
  simpl. destruct (Ascii.eqb_spec d sep) as [->|N].
  - exfalso. apply H, in_chars_String. now left.
  - rewrite IH; [reflexivity|]. intros I. apply H, in_chars_String. now right.
Qed.

(** X10.  Parsing composes over the semicolon: the parameters of
    [a;b] are those the segments of [b] make of the parameters of
    [a]. *)
Theorem parse_continues_after_semicolon (a c : string) :
  parse_audio_mime_type (a ++ ";" ++ c)
  = (p <- parse_audio_mime_type a ;; parse_params (Py.split ";" c) p).
Proof.
  unfold parse_audio_mime_type.
  change (a ++ ";" ++ c)%string with (a ++ String ";" c)%string.
  rewrite split_app, !parse_params_spec, bind_Ok, parse_params_spec.
  now rewrite fold_left_app.
Qed.

(** X11.  The last segment decides: appended to any MIME type, a
    well-formed rate (or bit-depth) segment replaces the value read so
    far, and a segment without a well-formed field leaves the value
    read so far, not the default. *)
Theorem last_segment_decides (a segment : string) :
  ~ In ";"%char (chars segment) ->
  exists p q,
    parse_audio_mime_type a = Ok p
    /\ parse_audio_mime_type (a ++ ";" ++ segment) = Ok q
    /\ rate q = match rate_field segment with Some n => n | None => rate p end
    /\ bits_per_sample q
       = match bits_field segment with Some n => n | None => bits_per_sample p end.
Proof.
  intros H.
  exists (fold_left spec_segment (Py.split ";" a) default_params).
  exists (spec_segment (fold_left spec_segment (Py.split ";" a) default_params) segment).
  split; [apply parse_params_spec|]. split.
  - unfold parse_audio_mime_type.
    change (a ++ ";" ++ segment)%string with (a ++ String ";" segment)%string.
    rewrite split_app, (split_without_separator _ _ H), parse_params_spec.
    now rewrite fold_left_app.
  - split; [apply spec_segment_rate | apply spec_segment_bits].
Qed.

Lemma malformed_rate_keeps_earlier_rate :
  parse_audio_mime_type ("audio/L24;rate=48000" ++ ";" ++ "rate=fast")
  = Ok (mkAudioParams 24 48000).
Proof.
  destruct (last_segment_decides "audio/L24;rate=48000" "rate=fast")
    as (p & q & Hp & Hq & Hr & Hb).
  - unfold chars. simpl. intuition discriminate.
  - assert (E : p = mkAudioParams 24 48000) by (cbv in Hp; congruence).
    subst p. vm_compute in Hr. vm_compute in Hb.
    rewrite Hq. destruct q as [bits r]. simpl in Hr, Hb. now subst.
Defined.

(** ** Script generation *)

Lemma prefix_app_same a p s : String.prefix (a ++ p) (a ++ s) = String.prefix p s.
Proof.
  induction a as [|c a IH]; [reflexivity|].
  simpl. destruct (ascii_dec c c) as [_|N]; [exact IH | contradiction].
Qed.

Lemma startswith_self_app s x : Py.startswith (s ++ x) s = true.
Proof.
  unfold Py.startswith. induction s as [|c s IH]; [now destruct x|].
  simpl. destruct (ascii_dec c c) as [_|N]; [exact IH | contradiction].
Qed.

Lemma startswith_self s : Py.startswith s s = true.
Proof.
  unfold Py.startswith. induction s as [|c s IH]; [reflexivity|].
  simpl. destruct (ascii_dec c c) as [_|N]; [exact IH | contradiction].
Qed.

Lemma substring_split n s :
  (n <= String.length s)%nat ->
  s = (substring 0 n s ++ substring n (String.length s - n) s)%string.
Proof.
  revert s. induction n as [|n IH]; intros s H.
  - simpl. rewrite Nat.sub_0_r.
    replace (substring 0 0 s) with EmptyString by now destruct s.
    simpl. now rewrite substring_all.
  - destruct s as [|c s]; [simpl in H; lia|].
    simpl. f_equal. apply IH. simpl in H. lia.
Qed.

Lemma endswith_suffix s p :
  Py.endswith s p = true -> exists before, s = (before ++ p)%string.
Proof.
  unfold Py.endswith. intros H. apply andb_true_iff in H. destruct H as [L E].
  apply Nat.leb_le in L. apply String.eqb_eq in E.
  exists (substring 0 (String.length s - String.length p) s).
  rewrite (substring_split (String.length s - String.length p) s) at 1 by lia.
  f_equal. rewrite <- E at 3. f_equal. lia.
Qed.

Lemma last_char_app before p :
  p <> EmptyString -> last_char (before ++ p) = last_char p.
Proof.
  intros H. induction before as [|c before IH]; [reflexivity|].
  simpl. destruct (before ++ p)%string eqn:E; [|exact IH].
  destruct before; simpl in E; [contradiction | discriminate].
Qed.

Lemma endswith_last_char s p c :
  Py.endswith s p = true -> last_char p = Some c -> last_char s = Some c.
Proof.
  intros H L. destruct (endswith_suffix s p H) as [before ->].
  rewrite last_char_app; [exact L|]. intros ->. discriminate L.
Qed.

Lemma rstrip_fixed_last s c :
  last_char s = Some c -> Py.isspace c = false -> Py.rstrip s = s.
Proof.
  induction s as [|d s IH]; [discriminate|].
  intros L S. cbn [Py.rstrip]. destruct s as [|e s].
  - simpl in *. injection L as ->. now rewrite S.
  - rewrite (IH L S). reflexivity.
Qed.

(** A script that ends with one of the three marks passes the test. *)
Lemma punctuated_script_is_complete (script : string) :
  Py.endswith_any script ["."; "!"; "?"] = true -> looks_incomplete script = false.
Proof.
  intros E. unfold looks_incomplete. rewrite E. cbn [negb orb].
  assert (P : exists c, last_char script = Some c
                        /\ (c = "." \/ c = "!" \/ c = "?")%char).
  { unfold Py.endswith_any in E. cbn [existsb] in E.
    rewrite !orb_true_iff in E. destruct E as [E|[E|[E|E]]]; [| | |discriminate].
    - exists "."%char. split; [now apply (endswith_last_char _ "." _ E)|auto].
    - exists "!"%char. split; [now apply (endswith_last_char _ "!" _ E)|auto].
    - exists "?"%char. split; [now apply (endswith_last_char _ "?" _ E)|auto]. }
  destruct P as (c & L & C).
  rewrite (rstrip_fixed_last script c L)
    by (destruct C as [->|[->| ->]]; reflexivity).
  destruct (Py.endswith_any script ["ni"; "at"; "ang"; "ng"; "sa"]) eqn:W;
    [|reflexivity].
  exfalso. unfold Py.endswith_any in W. cbn [existsb] in W.
  rewrite !orb_true_iff in W.
  destruct W as [W|[W|[W|[W|[W|W]]]]]; [| | | | |discriminate];
    [ pose proof (endswith_last_char _ "ni" "i" W eq_refl) as L'
    | pose proof (endswith_last_char _ "at" "t" W eq_refl) as L'
    | pose proof (endswith_last_char _ "ang" "g" W eq_refl) as L'
    | pose proof (endswith_last_char _ "ng" "g" W eq_refl) as L'
    | pose proof (endswith_last_char _ "sa" "a" W eq_refl) as L' ];
    rewrite L in L'; injection L' as ->;
    destruct C as [C|[C|C]]; discriminate C.
Qed.

Lemma unpunctuated_script_is_incomplete (script : string) :
  Py.endswith_any script ["."; "!"; "?"] = false -> looks_incomplete script = true.
Proof. intros E. unfold looks_incomplete. now rewrite E. Qed.

(** X12.  A script is taken to be cut off exactly when it does not end
    with a full stop, an exclamation mark or a question mark: the test
    on the endings [ni], [at], [ang], [ng], [sa] never changes the
    verdict. *)
Theorem word_endings_never_matter (script : string) :
  looks_incomplete script = negb (Py.endswith_any script ["."; "!"; "?"]).
Proof.
  destruct (Py.endswith_any script ["."; "!"; "?"]) eqn:E.
  - now rewrite (punctuated_script_is_complete script E).
  - now rewrite (unpunctuated_script_is_incomplete script E).
Qed.

Section ScriptRetries.

Variable generate_content : nat -> Request -> Reply.
Variable Fore_RED : string.
Variables topic speaker1_name speaker2_name language_choice : string.
Variable duration_minutes : Z.

Let request : Request :=
  script_request topic speaker1_name speaker2_name language_choice duration_minutes.
Let attempts_from (l : list nat) : list ScriptEvent * option string :=
  script_attempts generate_content Fore_RED topic speaker1_name speaker2_name
    language_choice duration_minutes l.

(** The loop passes over the replies it retries. *)
Lemma script_attempts_skip k : forall n first,
  (k < n)%nat -> (first + n <= MAX_RETRIES)%nat ->
  (forall i, (i < k)%nat -> retriable (generate_content (first + i) request) = true) ->
  attempts_from (seq first n)
  = (flat_map (fun attempt => [GenerateContent attempt request; ScriptSleep RETRY_DELAY])
       (seq first k)
     ++ fst (attempts_from (seq (first + k) (n - k))),
     snd (attempts_from (seq (first + k) (n - k)))).
Proof.
  induction k as [|k IH]; intros n first Hk Hn Hretry.
  - rewrite Nat.add_0_r, Nat.sub_0_r. cbn [seq flat_map app].
    now destruct (attempts_from (seq first n)).
  - destruct n as [|n]; [lia|].
    pose proof (Hretry 0%nat ltac:(lia)) as R. rewrite Nat.add_0_r in R.
    assert (L : (first <? MAX_RETRIES - 1)%nat = true) by (apply Nat.ltb_lt; lia).
    assert (IH' : attempts_from (seq (S first) n)
                  = (flat_map
                       (fun attempt =>
                          [GenerateContent attempt request; ScriptSleep RETRY_DELAY])
                       (seq (S first) k)
                     ++ fst (attempts_from (seq (first + S k) (S n - S k))),
                     snd (attempts_from (seq (first + S k) (S n - S k))))).
    { rewrite Nat.add_succ_r. cbn [Nat.sub].
      apply (IH n (S first)); [lia | lia |].
      intros i Hi. specialize (Hretry (S i) ltac:(lia)).
      now rewrite Nat.add_succ_r in Hretry. }
    unfold attempts_from at 1. cbn [seq script_attempts].
    fold request. unfold retriable in R.
    destruct (generate_content first request) as [text|e].
    + rewrite R, L. fold (attempts_from (seq (S first) n)). now rewrite IH'.
    + apply negb_true_iff in R. rewrite R, L.
      fold (attempts_from (seq (S first) n)). now rewrite IH'.
Qed.

(** What attempt [k] settles, once the attempts before it were retried. *)
Lemma script_settled_at k :
  (k < MAX_RETRIES)%nat ->
  (forall i, (i < k)%nat -> retriable (generate_content i request) = true) ->
  generate_podcast_script generate_content Fore_RED topic speaker1_name
    speaker2_name language_choice duration_minutes
  = (flat_map (fun attempt => [GenerateContent attempt request; ScriptSleep RETRY_DELAY])
       (seq 0 k)
     ++ fst (attempts_from (seq k (MAX_RETRIES - k))),
     snd (attempts_from (seq k (MAX_RETRIES - k)))).
Proof.
  intros Hk Hretry. unfold generate_podcast_script.
  apply (script_attempts_skip k MAX_RETRIES 0 Hk (le_n _) Hretry).
Qed.

End ScriptRetries.

Lemma seq_remaining k : (k < MAX_RETRIES)%nat ->
  seq k (MAX_RETRIES - k) = k :: seq (S k) (MAX_RETRIES - S k).
Proof.
  intros H. destruct (MAX_RETRIES - k)%nat as [|m] eqn:E; [lia|].
  cbn [seq]. f_equal. f_equal. lia.
Qed.

Ltac settle_script_at k Hk Hretry :=
  rewrite (script_settled_at _ _ _ _ _ _ _ k Hk Hretry);
  rewrite (seq_remaining k Hk); cbn [script_attempts].

(** X13.  An exception that mentions [content_filter], in any case,
    ends the retries at once: no further request is made, and the error
    returned is the fixed text about sensitive content. *)
Theorem content_filter_ends_the_retries
    (generate_content : nat -> Request -> Reply) (Fore_RED : string)
    (topic speaker1_name speaker2_name language_choice : string)
    (duration_minutes : Z) (k : nat) (error_message : string) :
  (k < MAX_RETRIES)%nat ->
  (forall i, (i < k)%nat ->
     retriable
       (generate_content i
          (script_request topic speaker1_name speaker2_name language_choice
             duration_minutes)) = true) ->
  generate_content k
    (script_request topic speaker1_name speaker2_name language_choice duration_minutes)
  = Raises error_message ->
  Py.contains "content_filter" (Py.lower error_message) = true ->
  generate_podcast_script generate_content Fore_RED topic speaker1_name
    speaker2_name language_choice duration_minutes
  = (script_retry_events
       (script_request topic speaker1_name speaker2_name language_choice
          duration_minutes) 0 k,
     Some (sensitive_error Fore_RED)).
Proof.
  intros Hk Hretry Hreply Hfilter.
  settle_script_at k Hk Hretry. rewrite Hreply, Hfilter. reflexivity.
Qed.

Lemma filtered_after_blank_is_not_retried :
  generate_podcast_script filtered_after_blank ansi_red "Tides" "Ana" "Ben" "english" 3
  = ([GenerateContent 0 (script_request "Tides" "Ana" "Ben" "english" 3);
      ScriptSleep 2;
      GenerateContent 1 (script_request "Tides" "Ana" "Ben" "english" 3)],
     Some (sensitive_error ansi_red)).
Proof.
  apply (content_filter_ends_the_retries filtered_after_blank ansi_red
           "Tides" "Ana" "Ben" "english" 3 1 "400 Blocked: CONTENT_FILTER").
  - unfold MAX_RETRIES. lia.
  - intros i Hi. assert (i = 0%nat) as -> by lia. reflexivity.
  - reflexivity.
  - reflexivity.
Defined.

(** X14.  A reply that, stripped, ends with a full stop, an exclamation
    mark or a question mark is returned stripped, and no conclusion is
    requested. *)
Theorem complete_script_is_returned
    (generate_content : nat -> Request -> Reply) (Fore_RED : string)
    (topic speaker1_name speaker2_name language_choice : string)
    (duration_minutes : Z) (k : nat) (t : string) :
  (k < MAX_RETRIES)%nat ->
  (forall i, (i < k)%nat ->
     retriable
       (generate_content i
          (script_request topic speaker1_name speaker2_name language_choice
             duration_minutes)) = true) ->
  generate_content k
    (script_request topic speaker1_name speaker2_name language_choice duration_minutes)
  = Response (Some t) ->
  is_blank (Some t) = false ->
  Py.endswith_any (Py.strip t) ["."; "!"; "?"] = true ->
  generate_podcast_script generate_content Fore_RED topic speaker1_name
    speaker2_name language_choice duration_minutes
  = (script_retry_events
       (script_request topic speaker1_name speaker2_name language_choice
          duration_minutes) 0 k,
     Some (Py.strip t)).
Proof.
  intros Hk Hretry Hreply Hblank Hend.
  settle_script_at k Hk Hretry. rewrite Hreply, Hblank.
  now rewrite (punctuated_script_is_complete _ Hend).
Qed.

Lemma complete_reply_is_returned :
  generate_podcast_script complete_reply ansi_red "Tides" "Ana" "Ben" "english" 3
  = ([GenerateContent 0 (script_request "Tides" "Ana" "Ben" "english" 3)],
     Some "Ana: Hi. Ben: Bye.").
Proof.
  apply (complete_script_is_returned complete_reply ansi_red
           "Tides" "Ana" "Ben" "english" 3 0 "  Ana: Hi. Ben: Bye.  ").
  - unfold MAX_RETRIES. lia.
  - intros i Hi. lia.
  - reflexivity.
  - reflexivity.
  - reflexivity.
Defined.

(** X15.  A reply that does not end with such a mark gets one request
    for a conclusion, which is never retried: text that comes back is
    appended, stripped, on a new line; a blank conclusion or an
    exception leaves the script as it is. *)
Theorem incomplete_script_gets_one_conclusion
    (generate_content : nat -> Request -> Reply) (Fore_RED : string)
    (topic speaker1_name speaker2_name language_choice : string)
    (duration_minutes : Z) (k : nat) (t : string) :
  (k < MAX_RETRIES)%nat ->
  (forall i, (i < k)%nat ->
     retriable
       (generate_content i
          (script_request topic speaker1_name speaker2_name language_choice
             duration_minutes)) = true) ->
  generate_content k
    (script_request topic speaker1_name speaker2_name language_choice duration_minutes)
  = Response (Some t) ->
  is_blank (Some t) = false ->
  Py.endswith_any (Py.strip t) ["."; "!"; "?"] = false ->
  generate_podcast_script generate_content Fore_RED topic speaker1_name
    speaker2_name language_choice duration_minutes
  = (script_retry_events
       (script_request topic speaker1_name speaker2_name language_choice
          duration_minutes) 0 k
     ++ [GenerateContent (S k)
           (completion_request speaker1_name speaker2_name (Py.strip t))],
     Some
       match generate_content (S k)
               (completion_request speaker1_name speaker2_name (Py.strip t)) with
       | Response conclusion =>
           if is_blank conclusion then Py.strip t
           else (Py.strip t ++ nl
                 ++ Py.strip (match conclusion with
                              | Some c => c
                              | None => EmptyString
                              end))%string
       | Raises _ => Py.strip t
       end).
Proof.
  intros Hk Hretry Hreply Hblank Hend.
  settle_script_at k Hk Hretry. rewrite Hreply, Hblank.
  rewrite (unpunctuated_script_is_incomplete _ Hend).
  unfold script_retry_events, complete_script.
  rewrite <- app_assoc. cbn [app Nat.add]. f_equal. f_equal.
  destruct (generate_content (S k) _) as [[c|]|e]; try reflexivity.
  cbn [is_blank]. rewrite <- negb_orb.
  now destruct (String.eqb c EmptyString || String.eqb (Py.strip c) EmptyString).
Qed.

Lemma cut_off_reply_is_kept :
  generate_podcast_script cut_off_reply ansi_red "Tides" "Ana" "Ben" "english" 3
  = ([GenerateContent 0 (script_request "Tides" "Ana" "Ben" "english" 3);
      ScriptSleep 2;
      GenerateContent 1 (script_request "Tides" "Ana" "Ben" "english" 3);
      GenerateContent 2 (completion_request "Ana" "Ben" "Ana: So the tide")],
     Some "Ana: So the tide").
Proof.
  apply (incomplete_script_gets_one_conclusion cut_off_reply ansi_red
           "Tides" "Ana" "Ben" "english" 3 1 "Ana: So the tide").
  - unfold MAX_RETRIES. lia.
  - intros i Hi. assert (i = 0%nat) as -> by lia. reflexivity.
  - reflexivity.
  - reflexivity.
  - reflexivity.
Defined.

(** X16.  When every reply is blank or a retriable exception, exactly
    [MAX_RETRIES] requests are made, [RETRY_DELAY] seconds apart, and
    the error returned tells of the last attempt only: the text about
    the language when it was blank, the exception's message
    otherwise. *)
Theorem script_retries_exhausted
    (generate_content : nat -> Request -> Reply) (Fore_RED : string)
    (topic speaker1_name speaker2_name language_choice : string)
    (duration_minutes : Z) :
  (forall i, (i < MAX_RETRIES)%nat ->
     retriable
       (generate_content i
          (script_request topic speaker1_name speaker2_name language_choice
             duration_minutes)) = true) ->
  generate_podcast_script generate_content Fore_RED topic speaker1_name
    speaker2_name language_choice duration_minutes
  = (script_retry_events
       (script_request topic speaker1_name speaker2_name language_choice
          duration_minutes) 0 2,
     Some
       match generate_content 2%nat
               (script_request topic speaker1_name speaker2_name language_choice
                  duration_minutes) with
       | Response _ => unable_error Fore_RED language_choice
       | Raises error_message => exception_error Fore_RED error_message
       end).
Proof.
  intros Hretry.
  assert (Hk : (2 < MAX_RETRIES)%nat) by (unfold MAX_RETRIES; lia).
  assert (Hbefore : forall i, (i < 2)%nat ->
            retriable
              (generate_content i
                 (script_request topic speaker1_name speaker2_name language_choice
                    duration_minutes)) = true)
    by (intros i Hi; apply Hretry; unfold MAX_RETRIES; lia).
  pose proof (Hretry 2%nat Hk) as R.
  settle_script_at 2%nat Hk Hbefore.
  unfold retriable in R.
  destruct (generate_content 2%nat _) as [text|e].
  - rewrite R. reflexivity.
  - apply negb_true_iff in R. rewrite R. reflexivity.
Qed.

Lemma never_answers_gives_language_error :
  generate_podcast_script never_answers ansi_red "Tides" "Ana" "Ben" "english" 3
  = ([GenerateContent 0 (script_request "Tides" "Ana" "Ben" "english" 3);
      ScriptSleep 2;
      GenerateContent 1 (script_request "Tides" "Ana" "Ben" "english" 3);
      ScriptSleep 2;
      GenerateContent 2 (script_request "Tides" "Ana" "Ben" "english" 3)],
     Some (unable_error ansi_red "english")).
Proof.
  apply (script_retries_exhausted never_answers ansi_red
           "Tides" "Ana" "Ben" "english" 3).
  intros i Hi. unfold MAX_RETRIES in Hi.
  assert (i = 0 \/ i = 1 \/ i = 2)%nat as [-> | [-> | ->]] by lia; reflexivity.
Defined.

Lemma unable_error_reported Fore_RED language_choice :
  reported_as_error Fore_RED (unable_error Fore_RED language_choice) = true.
Proof.
  unfold reported_as_error, unable_error, Py.startswith.
  now rewrite prefix_app_same.
Qed.

Lemma sensitive_error_reported Fore_RED :
  reported_as_error Fore_RED (sensitive_error Fore_RED) = true.
Proof.
  unfold reported_as_error, sensitive_error, Py.startswith.
  now rewrite prefix_app_same.
Qed.

Lemma exception_error_reported Fore_RED error_message :
  reported_as_error Fore_RED (exception_error Fore_RED error_message) = true.
Proof.
  unfold reported_as_error, exception_error, Py.startswith.
  now rewrite prefix_app_same.
Qed.

Section ScriptOutcome.

Variable generate_content : nat -> Request -> Reply.
Variable Fore_RED : string.
Variables topic speaker1_name speaker2_name language_choice : string.
Variable duration_minutes : Z.

Let request : Request :=
  script_request topic speaker1_name speaker2_name language_choice duration_minutes.

(** The shape of a run: the requests made, and what is returned. *)
Let shape (k : nat) (r : string) (rest : list ScriptEvent) : Prop :=
  (k < MAX_RETRIES)%nat
  /\ generate_podcast_script generate_content Fore_RED topic speaker1_name
       speaker2_name language_choice duration_minutes
     = (script_retry_events request 0 k ++ rest, Some r)
  /\ (rest = []
      \/ exists script,
           rest = [GenerateContent (S k)
                     (completion_request speaker1_name speaker2_name script)])
  /\ (reported_as_error Fore_RED r = true
      \/ exists t,
           generate_content k request = Response (Some t)
           /\ is_blank (Some t) = false
           /\ Py.startswith r (Py.strip t) = true).

Lemma script_settles k :
  (k < MAX_RETRIES)%nat ->
  (forall i, (i < k)%nat -> retriable (generate_content i request) = true) ->
  retriable (generate_content k request) = false ->
  exists r rest, shape k r rest.
Proof.
  intros Hk Hretry Hsettle. unfold shape.
  settle_script_at k Hk Hretry. fold request.
  unfold retriable in Hsettle.
  destruct (generate_content k request) as [[t|]|e] eqn:Hreply;
    [| discriminate Hsettle |].
  - rewrite Hsettle.
    destruct (looks_incomplete (Py.strip t)) eqn:Hcut.
    + eexists. eexists. split; [exact Hk|]. split.
      * unfold script_retry_events. rewrite <- app_assoc. cbn [app Nat.add fst snd].
        reflexivity.
      * split; [right; eexists; reflexivity|].
        right. exists t. split; [reflexivity|]. split; [exact Hsettle|].
        unfold complete_script.
        destruct (generate_content (S k) _) as [[c|]|e'];
          try apply startswith_self.
        destruct (negb (String.eqb c EmptyString)
                  && negb (String.eqb (Py.strip c) EmptyString));
          [apply startswith_self_app | apply startswith_self].
    + exists (Py.strip t), []. split; [exact Hk|]. split.
      * cbn [fst snd]. now rewrite app_nil_r.
      * split; [now left|]. right. exists t.
        split; [reflexivity|]. split; [exact Hsettle | apply startswith_self].
  - apply negb_false_iff in Hsettle. rewrite Hsettle.
    exists (sensitive_error Fore_RED), []. split; [exact Hk|]. split.
    + cbn [fst snd]. now rewrite app_nil_r.
    + split; [now left|]. left. apply sensitive_error_reported.
Qed.

Lemma script_gives_up :
  (forall i, (i < MAX_RETRIES)%nat -> retriable (generate_content i request) = true) ->
  exists r rest, shape 2 r rest.
Proof.
  intros Hretry. unfold shape.
  assert (Hk : (2 < MAX_RETRIES)%nat) by (unfold MAX_RETRIES; lia).
  assert (Hbefore : forall i, (i < 2)%nat ->
            retriable (generate_content i request) = true)
    by (intros i Hi; apply Hretry; unfold MAX_RETRIES; lia).
  pose proof (Hretry 2%nat Hk) as R.
  settle_script_at 2%nat Hk Hbefore. fold request.
  unfold retriable in R.
  destruct (generate_content 2%nat request) as [text|e].
  - rewrite R. exists (unable_error Fore_RED language_choice), [].
    split; [exact Hk|]. split; [cbn; reflexivity|].
    split; [now left|]. left. apply unable_error_reported.
  - apply negb_true_iff in R. rewrite R.
    exists (exception_error Fore_RED e), [].
    split; [exact Hk|]. split; [cbn; reflexivity|].
    split; [now left|]. left. apply exception_error_reported.
Qed.

End ScriptOutcome.

(** X17.  [generate_podcast_script] always returns a string.  It makes
    at most [MAX_RETRIES] script requests and at most one request for a
    conclusion.  What it returns either starts with the red ["Error:"]
    mark that [main] tests for, or starts with the stripped text of the
    reply that settled the run. *)
Theorem script_outcome
    (generate_content : nat -> Request -> Reply) (Fore_RED : string)
    (topic speaker1_name speaker2_name language_choice : string)
    (duration_minutes : Z) :
  exists k r rest,
    (k < MAX_RETRIES)%nat
    /\ generate_podcast_script generate_content Fore_RED topic speaker1_name
         speaker2_name language_choice duration_minutes
       = (script_retry_events
            (script_request topic speaker1_name speaker2_name language_choice
               duration_minutes) 0 k ++ rest,
          Some r)
    /\ (rest = []
        \/ exists script,
             rest = [GenerateContent (S k)
                       (completion_request speaker1_name speaker2_name script)])
    /\ (reported_as_error Fore_RED r = true
        \/ exists t,
             generate_content k
               (script_request topic speaker1_name speaker2_name language_choice
                  duration_minutes) = Response (Some t)
             /\ is_blank (Some t) = false
             /\ Py.startswith r (Py.strip t) = true).
Proof.
  set (request := script_request topic speaker1_name speaker2_name language_choice
                    duration_minutes).
  destruct (retriable (generate_content 0%nat request)) eqn:R0.
  2:{ destruct (script_settles generate_content Fore_RED topic speaker1_name
                  speaker2_name language_choice duration_minutes 0)
        as (r & rest & H); [unfold MAX_RETRIES; lia | intros i Hi; lia | exact R0 |].
      exists 0%nat, r, rest. exact H. }
  destruct (retriable (generate_content 1%nat request)) eqn:R1.
  2:{ destruct (script_settles generate_content Fore_RED topic speaker1_name
                  speaker2_name language_choice duration_minutes 1)
        as (r & rest & H); [unfold MAX_RETRIES; lia | | exact R1 |].
      - intros i Hi. assert (i = 0%nat) as -> by lia. exact R0.
      - exists 1%nat, r, rest. exact H. }
  destruct (retriable (generate_content 2%nat request)) eqn:R2.
  2:{ destruct (script_settles generate_content Fore_RED topic speaker1_name
                  speaker2_name language_choice duration_minutes 2)
        as (r & rest & H); [unfold MAX_RETRIES; lia | | exact R2 |].
      - intros i Hi. assert (i = 0 \/ i = 1)%nat as [-> | ->] by lia; assumption.
      - exists 2%nat, r, rest. exact H. }
  destruct (script_gives_up generate_content Fore_RED topic speaker1_name
              speaker2_name language_choice duration_minutes)
    as (r & rest & H).
  - intros i Hi. unfold MAX_RETRIES in Hi.
    assert (i = 0 \/ i = 1 \/ i = 2)%nat as [-> | [-> | ->]] by lia; assumption.
  - exists 2%nat, r, rest. exact H.
Qed.

(** ** Voice selection *)

Lemma voice_pool_cases gender :
  voice_pool gender = Some (Py.dict_get voices "male" [])
  \/ voice_pool gender = Some (Py.dict_get voices "female" [])
  \/ voice_pool gender = Some ["achird"].
Proof.
  unfold voice_pool.
  change (Py.dict_getitem voices "neutral") with (Some ["achird"]).
  cbv iota. unfold voices. cbn [Py.dict_get].
  destruct (String.eqb "male" (Py.lower gender)); [now left|].
  destruct (String.eqb "female" (Py.lower gender)); [right; now left|].
  destruct (String.eqb "neutral" (Py.lower gender)); right; now right.
Qed.

Lemma voice_pool_nonempty gender :
  exists pool, voice_pool gender = Some pool /\ pool <> [].
Proof.
  destruct (voice_pool_cases gender) as [H|[H|H]]; rewrite H;
    eexists; (split; [reflexivity | discriminate]).
Qed.

Section Draws.

Variable randbelow : nat -> nat -> nat.
Hypothesis randbelow_range : forall draw n, (0 < n)%nat -> (randbelow draw n < n)%nat.

Lemma choice_some draw pool :
  pool <> [] -> exists v, choice randbelow draw pool = Some v /\ In v pool.
Proof.
  intros H. unfold choice. destruct pool as [|x pool]; [contradiction|].
  assert (L : (randbelow draw (List.length (x :: pool)) < List.length (x :: pool))%nat)
    by (apply randbelow_range; simpl; lia).
  destruct (nth_error (x :: pool) (randbelow draw (List.length (x :: pool))))
    as [v|] eqn:E.
  - exists v. split; [reflexivity | now apply nth_error_In in E].
  - apply nth_error_None in E. lia.
Qed.

(** The loop, from a candidate [voice2] taken from the pool. *)
Lemma redraw_outcome pool2 voice1 : forall draws draw voice2,
  pool2 <> [] -> In voice2 pool2 ->
  match redraw randbelow draws draw pool2 voice1 voice2 with
  | Selected v1 v2 =>
      v1 = voice1 /\ In v2 pool2 /\ (v1 <> v2 \/ (List.length pool2 <= 1)%nat)
  | StillDrawing =>
      (1 < List.length pool2)%nat /\ voice2 = voice1
      /\ forall i, (i < draws)%nat -> choice randbelow (draw + i) pool2 = Some voice1
  | SelectionError _ => False
  end.
Proof.
  induction draws as [|draws IH]; intros draw voice2 Hne Hin; cbn [redraw].
  - destruct (String.eqb_spec voice2 voice1) as [E|N]; cbn [andb].
    + destruct (1 <? List.length pool2)%nat eqn:L.
      * apply Nat.ltb_lt in L. split; [exact L|]. split; [exact E|].
        intros i Hi. lia.
      * apply Nat.ltb_ge in L. split; [reflexivity|]. split; [exact Hin | now right].
    + split; [reflexivity|]. split; [exact Hin | left; congruence].
  - destruct (String.eqb_spec voice2 voice1) as [E|N]; cbn [andb].
    + destruct (1 <? List.length pool2)%nat eqn:L.
      * apply Nat.ltb_lt in L.
        destruct (choice_some draw pool2 Hne) as (v & Hv & Iv). rewrite Hv.
        specialize (IH (S draw) v Hne Iv).
        destruct (redraw randbelow draws (S draw) pool2 voice1 v);
          [exact IH | | exact IH].
        destruct IH as (_ & Ev & Hall). split; [exact L|]. split; [exact E|].
        intros [|i] Hi.
        -- rewrite Nat.add_0_r, Hv. now subst v.
        -- rewrite Nat.add_succ_r. apply (Hall i). lia.
      * apply Nat.ltb_ge in L. split; [reflexivity|]. split; [exact Hin | now right].
    + split; [reflexivity|]. split; [exact Hin | left; congruence].
Qed.

End Draws.

(** X18.  Whatever the genders and the random indices, [select_voices]
    raises nothing.  The voices it returns come from the pools of the
    two genders and differ unless the second pool has a single voice;
    and as long as it has not returned, every voice drawn for the
    second speaker was the first speaker's, so it returns at the first
    draw that is not. *)
Theorem select_voices_outcome
    (randbelow : nat -> nat -> nat) (draws : nat) (gender1 gender2 : string) :
  (forall draw n, (0 < n)%nat -> (randbelow draw n < n)%nat) ->
  exists pool1 pool2,
    voice_pool gender1 = Some pool1 /\ voice_pool gender2 = Some pool2
    /\ match select_voices randbelow draws gender1 gender2 with
       | Selected voice1 voice2 =>
           In voice1 pool1 /\ In voice2 pool2
           /\ (voice1 <> voice2 \/ (List.length pool2 <= 1)%nat)
       | StillDrawing =>
           (1 < List.length pool2)%nat
           /\ forall i, (i <= draws)%nat ->
                choice randbelow (1 + i) pool2 = choice randbelow 0 pool1
       | SelectionError _ => False
       end.
Proof.
  intros Hrange.
  destruct (voice_pool_nonempty gender1) as (pool1 & H1 & N1).
  destruct (voice_pool_nonempty gender2) as (pool2 & H2 & N2).
  exists pool1, pool2. split; [exact H1|]. split; [exact H2|].
  unfold select_voices. rewrite H1, H2.
  destruct (choice_some randbelow Hrange 0 pool1 N1) as (v1 & Hv1 & I1).
  destruct (choice_some randbelow Hrange 1 pool2 N2) as (v2 & Hv2 & I2).
  rewrite Hv1, Hv2.
  pose proof (redraw_outcome randbelow Hrange pool2 v1 draws 2 v2 N2 I2) as R.
  destruct (redraw randbelow draws 2 pool2 v1 v2); [| |exact R].
  - destruct R as (-> & I & D). auto.
  - destruct R as (L & E & Hall). split; [exact L|].
    intros [|i] Hi.
    + cbn [Nat.add]. now rewrite Hv2, E.
    + change (1 + S i)%nat with (2 + i)%nat. apply Hall. lia.
Qed.

Lemma fourth_on_third_draw_range draw n :
  (0 < n)%nat -> (fourth_on_third_draw draw n < n)%nat.
Proof.
  intros H. unfold fourth_on_third_draw.
  destruct draw as [|[|[|draw]]]; try exact H.
  apply Nat.mod_upper_bound. lia.
Qed.

Lemma same_gender_voices_differ :
  exists pool1 pool2,
    voice_pool "Male" = Some pool1 /\ voice_pool "male" = Some pool2
    /\ In "algenib" pool1 /\ In "enceladus" pool2
    /\ ("algenib" <> "enceladus" \/ (List.length pool2 <= 1)%nat).
Proof.
  exact (select_voices_outcome fourth_on_third_draw 1 "Male" "male"
           fourth_on_third_draw_range).
Defined.

Lemma voice_pool_fallback gender :
  Py.lower gender <> "male" -> Py.lower gender <> "female" ->
  voice_pool gender = Some ["achird"].
Proof.
  intros M F. unfold voice_pool.
  change (Py.dict_getitem voices "neutral") with (Some ["achird"]).
  cbv iota. unfold voices. cbn [Py.dict_get].
  destruct (String.eqb_spec "male" (Py.lower gender)) as [E|_]; [now elim M|].
  destruct (String.eqb_spec "female" (Py.lower gender)) as [E|_]; [now elim F|].
  now destruct (String.eqb "neutral" (Py.lower gender)).
Qed.

(** X19.  Two speakers whose genders are neither male nor female
    (neutral, or any unknown word) both get the voice [achird]: the
    neutral pool has one voice, so the loop that is to keep the voices
    apart does not run. *)
Theorem neutral_speakers_share_a_voice
    (randbelow : nat -> nat -> nat) (draws : nat) (gender1 gender2 : string) :
  (forall draw n, (0 < n)%nat -> (randbelow draw n < n)%nat) ->
  Py.lower gender1 <> "male" -> Py.lower gender1 <> "female" ->
  Py.lower gender2 <> "male" -> Py.lower gender2 <> "female" ->
  select_voices randbelow draws gender1 gender2 = Selected "achird" "achird".
Proof.
  intros Hrange M1 F1 M2 F2. unfold select_voices.
  rewrite (voice_pool_fallback gender1 M1 F1), (voice_pool_fallback gender2 M2 F2).
  assert (C : forall draw, choice randbelow draw ["achird"] = Some "achird").
  { intros draw. unfold choice. cbn [List.length].
    assert (randbelow draw 1 = 0)%nat as -> by (specialize (Hrange draw 1%nat); lia).
    reflexivity. }
  rewrite !C. now destruct draws.
Qed.

Lemma neutral_and_unknown_share_a_voice :
  select_voices round_robin 0 "Neutral" "robot" = Selected "achird" "achird".
Proof.
  apply (neutral_speakers_share_a_voice round_robin 0 "Neutral" "robot").
  - intros draw n H. unfold round_robin. apply Nat.mod_upper_bound. lia.
  - discriminate.
  - discriminate.
  - discriminate.
  - discriminate.
Defined.

Lemma disjoint_pools_spec l1 l2 a c :
  disjoint_pools l1 l2 = true -> In a l1 -> In c l2 -> a <> c.
Proof.
  unfold disjoint_pools. intros D Ia Ic E. subst c.
  rewrite forallb_forall in D. specialize (D a Ia).
  rewrite forallb_forall in D. specialize (D a Ic).
  now rewrite String.eqb_refl in D.
Qed.

Lemma voice_pools_disjoint gender1 gender2 pool1 pool2 :
  voice_pool gender1 = Some pool1 -> voice_pool gender2 = Some pool2 ->
  pool1 <> pool2 -> disjoint_pools pool1 pool2 = true.
Proof.
  intros H1 H2 N.
  destruct (voice_pool_cases gender1) as [E1|[E1|E1]];
    destruct (voice_pool_cases gender2) as [E2|[E2|E2]];
    rewrite H1 in E1; rewrite H2 in E2;
    injection E1 as ->; injection E2 as ->;
    solve [reflexivity | now elim N].
Qed.

(** X20.  Speakers of different genders never need a second draw: the
    pools of the three genders share no voice, so the first two draws
    already give two different voices. *)
Theorem different_pools_need_no_redraw
    (randbelow : nat -> nat -> nat) (gender1 gender2 : string)
    (pool1 pool2 : list string) :
  (forall draw n, (0 < n)%nat -> (randbelow draw n < n)%nat) ->
  voice_pool gender1 = Some pool1 -> voice_pool gender2 = Some pool2 ->
  pool1 <> pool2 ->
  exists voice1 voice2,
    select_voices randbelow 0 gender1 gender2 = Selected voice1 voice2
    /\ In voice1 pool1 /\ In voice2 pool2 /\ voice1 <> voice2.
Proof.
  intros Hrange H1 H2 N.
  pose proof (voice_pools_disjoint _ _ _ _ H1 H2 N) as D.
  destruct (voice_pool_nonempty gender1) as (p1 & H1' & N1).
  destruct (voice_pool_nonempty gender2) as (p2 & H2' & N2).
  rewrite H1 in H1'. injection H1' as <-. rewrite H2 in H2'. injection H2' as <-.
  destruct (choice_some randbelow Hrange 0 pool1 N1) as (v1 & Hv1 & I1).
  destruct (choice_some randbelow Hrange 1 pool2 N2) as (v2 & Hv2 & I2).
  pose proof (disjoint_pools_spec _ _ _ _ D I1 I2) as Dv.
  exists v1, v2. unfold select_voices. rewrite H1, H2, Hv1, Hv2. cbn [redraw].
  destruct (String.eqb_spec v2 v1) as [E|_]; [now elim Dv|].
  cbn [andb]. auto.
Qed.

Lemma male_and_female_voices_differ :
  exists voice1 voice2,
    select_voices always_first 0 "male" "female" = Selected voice1 voice2
    /\ In voice1 (Py.dict_get voices "male" [])
    /\ In voice2 (Py.dict_get voices "female" [])
    /\ voice1 <> voice2.
Proof.
  apply (different_pools_need_no_redraw always_first "male" "female").
  - intros draw n H. exact H.
  - reflexivity.
  - reflexivity.
  - discriminate.
Defined.

(** ** Failures after the retry loop *)

(** X21.  The script is saved before the audio is encoded: when the
    recorded MIME type declares parameters that do not fit the header,
    [struct.error] is raised after the script file has been written,
    and no audio file is saved. *)
Theorem encoding_failure_leaves_the_script
    (tts : nat -> Stream) (guess_extension : string -> option string)
    (file_name script : string) (m : string) (p : AudioParams) :
  ending (tts 0%nat) = Exhausted ->
  first_mime_type (elements (tts 0%nat)) = Some m ->
  m <> EmptyString ->
  guess_extension m = None ->
  parse_audio_mime_type m = Ok p ->
  ~ header_fields_fit p
      (Z.of_nat (List.length (List.concat (payloads (elements (tts 0%nat)))))) ->
  generate_podcast_audio tts guess_extension file_name script
  = ([OpenStream 0;
      SaveText (file_name ++ ".txt")%string script; ConvertToWav m],
     Raise StructError).
Proof.
  intros Hok Hm Hne Hg Hp Hfit.
  rewrite (generate_after_success tts guess_extension file_name script Hok).
  rewrite Hm.
  rewrite (save_audio_unknown _ _ _ _ m (first_mime_type_payloads _ _ Hm) Hne Hg).
  now rewrite (convert_to_wav_unfit _ _ _ Hp Hfit).
Qed.

Lemma negative_rate_leaves_the_script :
  generate_podcast_audio negative_rate_stream (fun _ => None)
    "podcast_tides_20250101_120000" "Host1: Welcome."
  = ([OpenStream 0;
      SaveText "podcast_tides_20250101_120000.txt" "Host1: Welcome.";
      ConvertToWav "audio/L16;rate=-8000"],
     Raise StructError).
Proof.
  apply (encoding_failure_leaves_the_script negative_rate_stream (fun _ => None)
           "podcast_tides_20250101_120000" "Host1: Welcome."
           "audio/L16;rate=-8000" (mkAudioParams 16 (-8000))).
  - reflexivity.
  - reflexivity.
  - discriminate.
  - reflexivity.
  - reflexivity.
  - unfold header_fields_fit, fits_uint32, fits_uint16. simpl. lia.
Defined.

(** ** Topics without a usable character *)

Lemma lstrip_all_space s :
  (forall c, In c (chars s) -> Py.isspace c = true) -> Py.lstrip s = EmptyString.
Proof.
  induction s as [|d s IH]; intros H; [reflexivity|].
  simpl. rewrite (H d) by (apply in_chars_String; now left).
  apply IH. intros c Hc. apply H, in_chars_String. now right.
Qed.

(** X22.  A topic in which every character is punctuation or
    whitespace is sanitized to the empty string, so all such topics
    share the file name [podcast__<timestamp>]. *)
Theorem punctuation_only_topic_has_no_name (topic timestamp : string) :
  (forall c, In c (chars topic) ->
     Py.isalnum c = false /\ c <> "_"%char /\ c <> "-"%char) ->
  sanitized_topic topic = EmptyString
  /\ podcast_file_name topic timestamp = ("podcast__" ++ timestamp)%string.
Proof.
  intros H.
  assert (E : sanitized_topic topic = EmptyString).
  { unfold sanitized_topic, Py.strip.
    rewrite lstrip_all_space; [reflexivity|].
    intros c Hc. apply substring_prefix_subset, in_re_sub_class in Hc.
    destruct Hc as [K I]. destruct (H c I) as (A & U & Y).
    unfold topic_char_kept in K. rewrite A in K.
    destruct (Ascii.eqb_spec c "_"%char); [contradiction|].
    destruct (Ascii.eqb_spec c "-"%char); [contradiction|].
    now destruct (Py.isspace c). }
  split; [exact E|]. unfold podcast_file_name. now rewrite E.
Qed.

Lemma question_marks_have_no_name :
  sanitized_topic "?! ..." = EmptyString
  /\ podcast_file_name "?! ..." "20250101_120000" = "podcast__20250101_120000".
Proof.
  apply (punctuation_only_topic_has_no_name "?! ..." "20250101_120000").
  intros c H. unfold chars in H. simpl in H.
  repeat (destruct H as [<-|H]; [repeat split; discriminate|]). destruct H.
Defined.

(** ** Reading back what [str] writes *)

Lemma int_digits_uint d : forall acc count,
  Py.int_digits (NilEmpty.string_of_uint d) acc count false
  = Some (uint_value d acc, (count + Decimal.nb_digits d)%nat, EmptyString).
Proof.
  induction d; intros acc count; cbn [NilEmpty.string_of_uint uint_value Decimal.nb_digits];
    [cbn; now rewrite Nat.add_0_r | ..];
    (cbn [Py.int_digits];
     match goal with
     | |- context [Py.digit_value ?c] =>
         let v := eval vm_compute in (Py.digit_value c) in
         change (Py.digit_value c) with v
     end;
     cbv iota; rewrite IHd; now rewrite Nat.add_succ_r).
Qed.

Lemma uint_value_pos d : forall acc,
  uint_value d (Z.pos acc) = Z.pos (Pos.of_uint_acc d acc).
Proof.
  induction d; intros acc; cbn [uint_value Pos.of_uint_acc]; [reflexivity | ..];
    (rewrite <- IHd; f_equal; lia).
Qed.

Lemma uint_value_zero d : uint_value d 0 = Z.of_N (Pos.of_uint d).
Proof.
  induction d; cbn [uint_value Pos.of_uint]; [reflexivity | exact IHd | ..];
    (cbn [Z.mul Z.add Z.of_N]; apply uint_value_pos).
Qed.

Lemma string_of_uint_length d :
  String.length (NilEmpty.string_of_uint d) = Decimal.nb_digits d.
Proof. induction d; simpl; congruence. Qed.

(** [int] of the digits of a positive number. *)
Lemma int_of_digits p :
  (String.length (NilEmpty.string_of_uint (Pos.to_uint p)) <= 4300)%nat ->
  Py.int (NilEmpty.string_of_uint (Pos.to_uint p)) = Ok (Z.pos p)
  /\ Py.int (String "-" (NilEmpty.string_of_uint (Pos.to_uint p))) = Ok (Z.neg p).
Proof.
  intros L. rewrite string_of_uint_length in L.
  pose proof (DecimalPos.Unsigned.to_uint_nonnil p) as NN.
  pose proof (DecimalPos.Unsigned.of_to p) as V.
  pose proof (int_digits_uint (Pos.to_uint p) 0 0) as D.
  rewrite uint_value_zero, V in D. cbn [Nat.add Z.of_N] in D.
  assert (C : (Decimal.nb_digits (Pos.to_uint p) =? 0)%nat = false).
  { apply Nat.eqb_neq. destruct (Pos.to_uint p); simpl; congruence. }
  assert (M : (Py.int_max_str_digits <? Decimal.nb_digits (Pos.to_uint p))%nat = false).
  { apply Nat.ltb_ge. exact L. }
  split.
  - unfold Py.int.
    destruct (Pos.to_uint p) eqn:E; [contradiction | ..];
      (cbn [NilEmpty.string_of_uint] in *; cbn [Py.int_lstrip];
       match goal with
       | |- context [Py.int_isspace ?c] =>
           change (Py.int_isspace c) with false
       end;
       cbv iota; rewrite D, C, M; reflexivity).
  - unfold Py.int. cbn [Py.int_lstrip].
    change (Py.int_isspace "-") with false. cbv iota.
    destruct (Pos.to_uint p) eqn:E; [contradiction | ..];
      (cbn [NilEmpty.string_of_uint] in *; rewrite D, C, M; reflexivity).
Qed.

Lemma str_pos p : Py.str (Z.pos p) = NilEmpty.string_of_uint (Pos.to_uint p).
Proof.
  unfold Py.str. cbn [Z.to_int NilZero.string_of_int].
  unfold NilZero.string_of_uint.
  pose proof (DecimalPos.Unsigned.to_uint_nonnil p).
  now destruct (Pos.to_uint p).
Qed.

Lemma str_neg p :
  Py.str (Z.neg p) = String "-" (NilEmpty.string_of_uint (Pos.to_uint p)).
Proof.
  unfold Py.str. cbn [Z.to_int NilZero.string_of_int].
  unfold NilZero.string_of_uint.
  pose proof (DecimalPos.Unsigned.to_uint_nonnil p).
  now destruct (Pos.to_uint p).
Qed.

Lemma int_str z :
  (String.length (Py.str (Z.abs z)) <= 4300)%nat -> Py.int (Py.str z) = Ok z.
Proof.
  destruct z as [|p|p]; cbn [Z.abs]; [reflexivity | |]; rewrite str_pos; intros L.
  - apply (int_of_digits p L).
  - rewrite str_neg. apply (int_of_digits p L).
Qed.

Lemma string_of_uint_chars d c :
  In c (chars (NilEmpty.string_of_uint d)) -> is_digit_or_minus c = true.
Proof.
  induction d; cbn [NilEmpty.string_of_uint]; [intros [] | ..];
    (intros H; apply in_chars_String in H; destruct H as [->|H];
     [reflexivity | now apply IHd]).
Qed.

Lemma str_chars z c : In c (chars (Py.str z)) -> is_digit_or_minus c = true.
Proof.
  destruct z as [|p|p].
  - intros [<-|[]]. reflexivity.
  - rewrite str_pos. apply string_of_uint_chars.
  - rewrite str_neg. intros H. apply in_chars_String in H.
    destruct H as [->|H]; [reflexivity | now apply string_of_uint_chars in H].
Qed.

Lemma str_nonempty z : Py.str z <> EmptyString.
Proof.
  destruct z as [|p|p]; [discriminate | | rewrite str_neg; discriminate].
  rewrite str_pos. pose proof (DecimalPos.Unsigned.to_uint_nonnil p).
  destruct (Pos.to_uint p); [contradiction | ..]; discriminate.
Qed.

Lemma digit_or_minus_plain c :
  is_digit_or_minus c = true -> Py.isspace c = false /\ c <> ";"%char.
Proof. each_ascii c; vm_compute; intros H; split; congruence. Qed.

Lemma last_char_in s c : last_char s = Some c -> In c (chars s).
Proof.
  induction s as [|d s IH]; [discriminate|].
  intros H. apply in_chars_String. destruct s as [|e s].
  - injection H as ->. now left.
  - right. now apply IH.
Qed.

Lemma last_char_some s : s <> EmptyString -> exists c, last_char s = Some c.
Proof.
  induction s as [|d s IH]; [contradiction|]. intros _.
  destruct s as [|e s]; [now exists d|].
  destruct IH as [c Hc]; [discriminate|]. now exists c.
Qed.

Lemma in_chars_app c a s :
  In c (chars (a ++ s)) -> In c (chars a) \/ In c (chars s).
Proof.
  induction a as [|d a IH]; [now right|].
  cbn [append]. intros H. apply in_chars_String in H.
  destruct H as [H|H].
  - left. apply in_chars_String. now left.
  - destruct (IH H); [left; apply in_chars_String; now right | now right].
Qed.

(** A literal prefix followed by a written number is already stripped
    and holds no semicolon. *)
Lemma labelled_number_plain (label : string) (z : Z) :
  (forall c, In c (chars label) -> Py.isspace c = false /\ c <> ";"%char) ->
  Py.strip (label ++ Py.str z) = (label ++ Py.str z)%string
  /\ ~ In ";"%char (chars (label ++ Py.str z)).
Proof.
  intros H.
  assert (P : forall c, In c (chars (label ++ Py.str z)) ->
                        Py.isspace c = false /\ c <> ";"%char).
  { intros c Hc. apply in_chars_app in Hc. destruct Hc as [Hc|Hc]; [now apply H|].
    now apply digit_or_minus_plain, (str_chars z). }
  split.
  - assert (N : (label ++ Py.str z)%string <> EmptyString).
    { pose proof (str_nonempty z). destruct label; [assumption | discriminate]. }
    destruct (last_char_some _ N) as [d Hd].
    unfold Py.strip.
    assert (L : Py.lstrip (label ++ Py.str z) = (label ++ Py.str z)%string).
    { destruct (label ++ Py.str z)%string as [|e s] eqn:E; [reflexivity|].
      simpl. destruct (P e) as [S _]; [apply in_chars_String; now left|].
      now rewrite S. }
    rewrite L. apply (rstrip_fixed_last _ d Hd).
    now destruct (P d (last_char_in _ _ Hd)).
  - intros I. now destruct (P _ I).
Qed.

Lemma rate_value_audio x : rate_value ("audio/L" ++ x) = None.
Proof. reflexivity. Qed.

Lemma substring_none s : substring 0 0 s = EmptyString.
Proof. now destruct s. Qed.

Lemma bits_value_audio x : bits_value ("audio/L" ++ x) = Some x.
Proof.
  unfold bits_value. simpl. now rewrite substring_none, Nat.sub_0_r, substring_all.
Qed.

Lemma rate_value_rate x : rate_value ("rate=" ++ x) = Some x.
Proof.
  unfold rate_value. simpl. now rewrite substring_none, Nat.sub_0_r, substring_all.
Qed.

Lemma string_app_assoc (a c d : string) : ((a ++ c) ++ d = a ++ c ++ d)%string.
Proof. induction a as [|x a IH]; simpl; [reflexivity | now rewrite IH]. Qed.

(** X23.  The parser reads back what Python writes: for all integers
    [bits] and [rate] of at most 4300 digits, negative ones included,
    the MIME type ["audio/L" + str(bits) + ";rate=" + str(rate)] parses
    to exactly these two values. *)
Theorem written_parameters_are_read_back (bits sample_rate : Z) :
  (String.length (Py.str (Z.abs bits)) <= 4300)%nat ->
  (String.length (Py.str (Z.abs sample_rate)) <= 4300)%nat ->
  parse_audio_mime_type ("audio/L" ++ Py.str bits ++ ";rate=" ++ Py.str sample_rate)
  = Ok (mkAudioParams bits sample_rate).
Proof.
  intros Hb Hr.
  destruct (labelled_number_plain "audio/L" bits) as [S1 N1].
  { intros c Hc. unfold chars in Hc. simpl in Hc.
    repeat (destruct Hc as [<-|Hc]; [split; [reflexivity | discriminate]|]).
    destruct Hc. }
  destruct (labelled_number_plain "rate=" sample_rate) as [S2 N2].
  { intros c Hc. unfold chars in Hc. simpl in Hc.
    repeat (destruct Hc as [<-|Hc]; [split; [reflexivity | discriminate]|]).
    destruct Hc. }
  unfold parse_audio_mime_type.
  replace ("audio/L" ++ Py.str bits ++ ";rate=" ++ Py.str sample_rate)%string
    with (("audio/L" ++ Py.str bits) ++ String ";" ("rate=" ++ Py.str sample_rate))%string
    by (now rewrite string_app_assoc).
  rewrite split_app, (split_without_separator _ _ N1), (split_without_separator _ _ N2).
  rewrite parse_params_spec. cbn [app fold_left]. f_equal.
  unfold spec_segment at 2. rewrite S1, rate_value_audio, bits_value_audio.
  rewrite (int_str bits Hb).
  unfold spec_segment. rewrite S2, rate_value_rate, (int_str sample_rate Hr).
  reflexivity.
Qed.

Lemma negative_parameters_are_read_back :
  parse_audio_mime_type ("audio/L" ++ Py.str (-8) ++ ";rate=" ++ Py.str 44100)
  = Ok (mkAudioParams (-8) 44100).
Proof.
  apply (written_parameters_are_read_back (-8) 44100).
  - vm_compute. lia.
  - vm_compute. lia.
Defined.
